(** * Page Objects over a browser-automation engine

    A shallow embedding of the Cypress test suite of this repository:
    the three Page Objects ([LoginPage], [InventoryPage], [CartPage]),
    the Custom Commands of [cypress/support/commands.js] and the two
    Test Specs.

    JavaScript code that talks to Cypress does two things: it runs
    synchronously (allocating objects, reading names, possibly throwing)
    and it _enqueues_ engine commands that the engine runs afterwards.
    Both are kept apart here:
    - a method is a computation in the monad [M]: it threads the [Store]
      (object heap, command registry and failure listeners), may [Throw]
      a JavaScript error and emits the list of engine commands ([Op]) it
      enqueued; what it did to the store and what it enqueued before it
      threw stays done;
    - the engine ([run]) then executes the emitted commands against a
      [Page], stopping at the first failure; the failure of a test goes
      through the listeners registered for the ['fail'] event. *)

Set Warnings "-register-all".
From Stdlib Require Import ZArith DecimalString DecimalZ DecimalPos.
From stdpp Require Import base strings list gmap.

Local Open Scope string_scope.
Local Open Scope list_scope.
Local Open Scope Z_scope.
Local Open Scope nat_scope.
Local Open Scope stdpp_scope.

(** ** JavaScript values *)

(** The values the methods receive as arguments: [undefined] (also what
    an omitted argument is), [null], booleans, integer-valued numbers,
    strings and arrays. Up to [2^53] in absolute value every integer is
    a number; beyond, only some are, and a literal denotes the nearest
    one, which is what is printed (see [number_text]). Numbers are
    compared as integers: the code compares them with 0 and with the
    length of a list of elements only. *)
Inductive JSValue :=
| JUndefined
| JNull
| JBool (b : bool)
| JNum (n : Z)
| JStr (s : string)
| JArr (l : list JSValue).

Inductive JsError :=
| TypeError (msg : string)
| ReferenceError (name : string).

(** How the evaluation of an expression without effects ends. *)
Inductive Completion (A : Type) :=
| Normal (a : A)
| Abrupt (e : JsError).
Arguments Normal {A} a.
Arguments Abrupt {A} e.

(** The double-quote character, for selectors such as [[data-test="error"]]. *)
Definition dq : string := String (Ascii.ascii_of_nat 34) EmptyString.
Definition quoted (s : string) : string := dq +:+ s +:+ dq.

Section Numbers.
Local Open Scope Z_scope.

(** The digits of an integer. *)
Definition decimal (n : Z) : string := NilZero.string_of_int (Z.to_int n).

(** [v / 2^e] rounded to the nearest integer, ties to even. *)
Definition round_half_even (v e : Z) : Z :=
  let q := v / 2 ^ e in
  let r := v mod 2 ^ e in
  let half := 2 ^ (e - 1) in
  if r <? half then q
  else if half <? r then q + 1
  else if Z.even q then q else q + 1.

(** The double nearest to an integer [v >= 2^53], as significand (between
    [2^52] and [2^53 - 1]) and exponent. *)
Definition to_double (v : Z) : Z * Z :=
  let e := Z.log2 v - 52 in
  let m := round_half_even v e in
  if m =? 2 ^ 53 then (2 ^ 52, e + 1) else (m, e).

(** Whether the integer [c] reads back as the double [m * 2^e]: it lies
    within half a gap of it, the ends counting when [m] is even. The
    gap below a power of two is half the gap above it. Values are
    compared four-fold so that the half gaps are integers. *)
Definition reads_back (m e c : Z) : bool :=
  let d := m * 2 ^ e in
  let below := if m =? 2 ^ 52 then 2 ^ e else 2 ^ (e + 1) in
  let above := 2 ^ (e + 1) in
  if Z.even m
  then (4 * d - below <=? 4 * c) && (4 * c <=? 4 * d + above)
  else (4 * d - below <? 4 * c) && (4 * c <? 4 * d + above).

(** The decimal with the fewest significant digits that reads back as
    the double, and of those the closest (ties to the even digit string):
    the first multiple of [10^j], from [j] downwards, that reads back. *)
Fixpoint shortest (m e : Z) (j : nat) : Z :=
  let d := m * 2 ^ e in
  let p := 10 ^ Z.of_nat j in
  let lo := d / p * p in
  let hi := lo + p in
  let take_lo := reads_back m e lo in
  let take_hi := reads_back m e hi in
  let closest :=
    if (d - lo <? hi - d) then lo
    else if (hi - d <? d - lo) then hi
    else if Z.even (d / p) then lo else hi in
  if take_lo && take_hi then closest
  else if take_lo then lo
  else if take_hi then hi
  else match j with
       | O => d
       | S j' => shortest m e j'
       end.

Fixpoint digits_count (fuel : nat) (c : Z) : nat :=
  match fuel with
  | O => O
  | S fuel' => if c <? 10 then 1%nat else S (digits_count fuel' (c / 10))
  end.

Fixpoint strip_zeros (fuel : nat) (c : Z) : Z :=
  match fuel with
  | O => c
  | S fuel' => if (c mod 10 =? 0) && (0 <? c) then strip_zeros fuel' (c / 10) else c
  end.

(** [Number::toString] of the double nearest to [v], for [v >= 2^53]. *)
Definition large_number_text (v : Z) : string :=
  let '(m, e) := to_double v in
  let d := m * 2 ^ e in
  if 2 ^ 1024 <=? d then "Infinity"
  else
    let n := digits_count 400 d in
    let c := shortest m e n in
    let n := digits_count 400 c in
    if (n <=? 21)%nat then decimal c
    else
      let s := decimal (strip_zeros 400 c) in
      match s with
      | EmptyString => s
      | String first EmptyString =>
          String first EmptyString +:+ "e+" +:+ decimal (Z.of_nat n - 1)
      | String first rest =>
          String first ("." +:+ rest) +:+ "e+" +:+ decimal (Z.of_nat n - 1)
      end.

(** The text JavaScript prints for the number an integer literal [n]
    denotes. Up to [2^53] every integer is a double and prints as its
    digits; beyond, the literal denotes the nearest double. *)
Definition number_text (n : Z) : string :=
  if Z.abs n <? 2 ^ 53 then decimal n
  else if 0 <? n then large_number_text n
  else "-" +:+ large_number_text (- n).

End Numbers.

Arguments large_number_text : simpl never.
Arguments number_text : simpl never.

(** [ToString], as applied by a template literal [`${v}`]. *)
Fixpoint ToString (v : JSValue) : string :=
  match v with
  | JUndefined => "undefined"
  | JNull => "null"
  | JBool b => if b then "true" else "false"
  | JNum n => number_text n
  | JStr s => s
  | JArr l =>
      String.concat ","
        (map (fun e => match e with
                       | JUndefined | JNull => EmptyString
                       | _ => ToString e
                       end) l)
  end.

(** [if (v)]. *)
Definition truthy (v : JSValue) : bool :=
  match v with
  | JUndefined | JNull => false
  | JBool b => b
  | JNum n => negb (n =? 0)%Z
  | JStr EmptyString => false
  | JStr _ => true
  | JArr _ => true
  end.

(** [v === n] for a number literal [n]. *)
Definition strict_eq_num (v : JSValue) (n : Z) : bool :=
  match v with
  | JNum m => (m =? n)%Z
  | _ => false
  end.

(** [hay.includes(needle)]. *)
Fixpoint includes (hay needle : string) : bool :=
  String.prefix needle hay
  || match hay with
     | EmptyString => false
     | String _ rest => includes rest needle
     end.

(** ** The live page *)

(** A DOM element as the engine and jQuery see it: its text, whether it
    is visible, and how it answers [.find(selector)] and
    [.parent(selector)]. Selector matching itself belongs to the browser. *)
Inductive Element := mkElement {
  el_text : string;
  el_visible : bool;
  el_find : string -> list Element;
  el_parent : string -> list Element
}.

Record Page := mkPage {
  page_url : string;
  query : string -> list Element
}.

(** What a command yields to the next command of its chain. *)
Inductive Subject :=
| SNone
| SElems (els : list Element)
| SText (s : string).

(** ** Objects, the command registry and the store *)

Inductive Class := ClsLoginPage | ClsInventoryPage | ClsCartPage.

(** An instance: its class and its own properties. *)
Record PageObject := mkPageObject {
  po_class : Class;
  po_fields : gmap string JSValue
}.

(** A reference to an instance is its address in the heap. *)
Definition Ref := nat.

(** The names under which the code registers and calls Custom Commands.
    None of them is a command Cypress ships with. *)
Inductive CommandName :=
| cmd_loginAsStandardUser
| cmd_loginAs
| cmd_addProductViaUI
| cmd_clearCart
| cmd_setupCartWithProducts.

Definition command_text (name : CommandName) : string :=
  match name with
  | cmd_loginAsStandardUser => "loginAsStandardUser"
  | cmd_loginAs => "loginAs"
  | cmd_addProductViaUI => "addProductViaUI"
  | cmd_clearCart => "clearCart"
  | cmd_setupCartWithProducts => "setupCartWithProducts"
  end.

Definition same_command (a b : CommandName) : bool :=
  String.eqb (command_text a) (command_text b).

(** The five arrow functions handed to [Cypress.Commands.add]. *)
Inductive CommandFn :=
| LoginAsStandardUserFn
| LoginAsFn
| AddProductViaUIFn
| ClearCartFn
| SetupCartWithProductsFn.

(** How a command of the engine can fail. *)
Inductive Failure :=
| ElementNotFound (selector : string)
| AssertionFailure (chainer : string) (args : list JSValue)
| NavigationTimeout (url : string)
| NoElementSubject
| InvalidArgument (command : string) (arg : JSValue)
| MultipleElements (command : string) (count : nat)
| UncaughtException (e : JsError).

(** A listener for the ['fail'] event: it is handed the failure and
    either keeps the test from failing ([None]) or throws, the same
    failure or another ([Some]). *)
Definition FailListener : Type := Failure -> option Failure.

(** The registry is kept as the list of registrations, latest first, so
    that registering a name twice is visible. The listeners are those
    registered for the test that is running. *)
Record Store := mkStore {
  heap : list PageObject;
  registry : list (CommandName * CommandFn);
  listeners : list FailListener
}.

(** How a piece of synchronous code ends: with a value, or with a thrown
    error. A throw undoes nothing: the store is as the code left it, and
    what it had enqueued stays enqueued. [O] is the type of what can be
    enqueued. *)
Inductive Result (O A : Type) :=
| Ok (a : A)
| Throw (e : JsError) (st : Store) (enqueued : list O).
Arguments Ok {O A} a.
Arguments Throw {O A} e st enqueued.

(** ** Engine commands *)

(** One constructor per Cypress command the code enqueues. A parent
    command ([Visit], [Get], [Url]) starts a chain; the others act on the
    subject yielded by the command before them. The callbacks of [Then]
    and [Each] are JavaScript functions: they run when the engine reaches
    the command and enqueue further commands. *)
Inductive Op :=
| Visit (url : string)
| Get (selector : string)
| Url
| Contains (selector : string) (content : JSValue)
| Parent (selector : string)
| Find (selector : string)
| Clear
| Type_ (text : JSValue)
| Click
| Select (option : JSValue)
| Should (chainer : string) (args : list JSValue)
| Then (callback : Subject -> Store -> Result Op (unit * Store * list Op))
| Each (callback : Element -> Store -> Result Op (unit * Store * list Op))
| Custom (name : CommandName) (args : list JSValue).

(** ** The monad of synchronous JavaScript *)

Definition M (A : Type) : Type := Store -> Result Op (A * Store * list Op).

Definition ret {A} (a : A) : M A := fun st => Ok (a, st, []).

Definition bind {A B} (m : M A) (k : A -> M B) : M B :=
  fun st =>
    match m st with
    | Throw e st1 ops1 => Throw e st1 ops1
    | Ok (a, st1, ops1) =>
        match k a st1 with
        | Throw e st2 ops2 => Throw e st2 (ops1 ++ ops2)
        | Ok (b, st2, ops2) => Ok (b, st2, ops1 ++ ops2)
        end
    end.

Definition throw {A} (e : JsError) : M A := fun st => Throw e st [].

(** The method call [v.toString()]: property access on [undefined] or
    [null] throws. *)
Definition toString (v : JSValue) : Completion string :=
  match v with
  | JUndefined =>
      Abrupt (TypeError "Cannot read properties of undefined (reading 'toString')")
  | JNull =>
      Abrupt (TypeError "Cannot read properties of null (reading 'toString')")
  | _ => Normal (ToString v)
  end.

Definition lift {A} (r : Completion A) : M A :=
  fun st => match r with Normal a => Ok (a, st, []) | Abrupt e => Throw e st [] end.

Declare Scope js_scope.
Delimit Scope js_scope with js.
Notation "x <- m ;; k" := (bind m (fun x => k))
  (at level 20, m at level 99, k at level 200, only parsing) : js_scope.
Notation "m ;; k" := (bind m (fun _ => k))
  (at level 100, k at level 200, only parsing, right associativity) : js_scope.
Local Open Scope js_scope.

(** The commands a computation enqueues, whether it returns or throws,
    and what it returns. *)
Definition emitted {A} (m : M A) (st : Store) : list Op :=
  match m st with Ok (_, _, ops) => ops | Throw _ _ ops => ops end.

Definition returned {A} (m : M A) (st : Store) : option A :=
  match m st with Ok (a, _, _) => Some a | Throw _ _ _ => None end.

(** ** The [cy] API *)

(** The chainer object every Cypress command returns. The code always
    finishes a chain before it starts the next one, so the order of the
    queue alone tells which chain a command belongs to, and the chainer
    carries nothing. *)
Inductive Chainable := chainable.

Definition enqueue (op : Op) : M Chainable := fun st => Ok (chainable, st, [op]).

Fixpoint lookup_command (name : CommandName) (reg : list (CommandName * CommandFn))
  : option CommandFn :=
  match reg with
  | [] => None
  | (n, fn) :: rest => if same_command n name then Some fn else lookup_command name rest
  end.

Module cy.
Definition visit (url : string) : M Chainable := enqueue (Visit url).
Definition get (selector : string) : M Chainable := enqueue (Get selector).
Definition url : M Chainable := enqueue Url.

(** [cy.name(args)] for one of the Custom Command names: the property
    exists on [cy] only once the command is registered. *)
Definition custom (name : CommandName) (args : list JSValue) : M Chainable :=
  fun st =>
    match lookup_command name (registry st) with
    | Some _ => enqueue (Custom name args) st
    | None =>
        Throw (TypeError ("cy." +:+ command_text name +:+ " is not a function")) st []
    end.

(** [cy.on('fail', listener)]: synchronous, nothing is enqueued. The code
    of this repository never calls it; it is here because it is the one
    way test code can get hold of a failure of the engine. *)
Definition on_fail (listener : FailListener) : M unit :=
  fun st =>
    Ok (tt,
        {| heap := heap st; registry := registry st;
           listeners := listeners st ++ [listener] |},
        []).
End cy.

(** Methods of a chainer; each enqueues a child command of the chain. *)
Module chain.
Definition clear (_ : Chainable) : M Chainable := enqueue Clear.
Definition type (_ : Chainable) (text : JSValue) : M Chainable := enqueue (Type_ text).
Definition click (_ : Chainable) : M Chainable := enqueue Click.
Definition select (_ : Chainable) (option : JSValue) : M Chainable :=
  enqueue (Select option).
Definition should (_ : Chainable) (chainer : string) (args : list JSValue)
  : M Chainable := enqueue (Should chainer args).
Definition contains (_ : Chainable) (selector : string) (content : JSValue)
  : M Chainable := enqueue (Contains selector content).
Definition parent (_ : Chainable) (selector : string) : M Chainable :=
  enqueue (Parent selector).
Definition find (_ : Chainable) (selector : string) : M Chainable :=
  enqueue (Find selector).
Definition then_ (_ : Chainable) (callback : Subject -> M unit) : M Chainable :=
  enqueue (Then callback).
Definition each (_ : Chainable) (callback : Element -> M unit) : M Chainable :=
  enqueue (Each callback).
End chain.

(** ** [new C()] *)

(** The classes a module has in scope are the ones it imports. *)
Definition Scope := gmap string Class.

(** [new name()] in a module with the given imports: an unbound name is a
    [ReferenceError]; otherwise a fresh instance with no own property (no
    class declares a constructor or a field). *)
Definition new (scope : gmap string Class) (name : string) : M Ref :=
  fun st =>
    match scope !! name with
    | None => Throw (ReferenceError (name +:+ " is not defined")) st []
    | Some c =>
        Ok (length (heap st),
            {| heap := heap st ++ [{| po_class := c; po_fields := ∅ |}];
               registry := registry st;
               listeners := listeners st |},
            [])
    end.

(** ** cypress/pages/LoginPage.js *)

Module LoginPage.
(** Elementos da página *)
Definition usernameField (this : Ref) : M Chainable := cy.get "#user-name".
Definition passwordField (this : Ref) : M Chainable := cy.get "#password".
Definition loginButton (this : Ref) : M Chainable := cy.get "#login-button".
Definition errorMessage (this : Ref) : M Chainable :=
  cy.get ("[data-test=" +:+ quoted "error" +:+ "]").
Definition errorButton (this : Ref) : M Chainable := cy.get ".error-button".

(** Ações da página *)
Definition visit (this : Ref) : M Ref :=
  cy.visit "https://www.saucedemo.com/" ;;
  ret this.

Definition fillUsername (this : Ref) (username : JSValue) : M Ref :=
  f <- usernameField this ;;
  c <- chain.clear f ;;
  chain.type c username ;;
  ret this.

Definition fillPassword (this : Ref) (password : JSValue) : M Ref :=
  f <- passwordField this ;;
  c <- chain.clear f ;;
  chain.type c password ;;
  ret this.

Definition clickLogin (this : Ref) : M Ref :=
  b <- loginButton this ;;
  chain.click b ;;
  ret this.

Definition clearError (this : Ref) : M Ref :=
  b <- errorButton this ;;
  chain.click b ;;
  ret this.

(** Método combinado para login completo *)
Definition login (this : Ref) (username password : JSValue) : M Ref :=
  fillUsername this username ;;
  fillPassword this password ;;
  clickLogin this ;;
  ret this.

(** Validações *)
Definition shouldShowError (this : Ref) (message : JSValue) : M Ref :=
  e <- errorMessage this ;;
  chain.should e "be.visible" [] ;;
  (if truthy message
   then e' <- errorMessage this ;;
        chain.should e' "contain" [message] ;;
        ret tt
   else ret tt) ;;
  ret this.

Definition shouldRedirectToInventory (this : Ref) : M Ref :=
  u <- cy.url ;;
  chain.should u "include" [JStr "/inventory"] ;;
  ret this.

Definition shouldBeOnLoginPage (this : Ref) : M Ref :=
  u <- cy.url ;;
  chain.should u "include" [JStr "saucedemo.com"] ;;
  b <- loginButton this ;;
  chain.should b "be.visible" [] ;;
  ret this.
End LoginPage.

(** ** cypress/pages/InventoryPage.js *)

Module InventoryPage.
(** Elementos da página *)
Definition pageTitle (this : Ref) : M Chainable := cy.get ".title".
Definition cartBadge (this : Ref) : M Chainable := cy.get ".shopping_cart_badge".
Definition cartIcon (this : Ref) : M Chainable := cy.get ".shopping_cart_link".
Definition menuButton (this : Ref) : M Chainable := cy.get "#react-burger-menu-btn".
Definition logoutLink (this : Ref) : M Chainable := cy.get "#logout_sidebar_link".
Definition inventoryItems (this : Ref) : M Chainable := cy.get ".inventory_item".
Definition sortDropdown (this : Ref) : M Chainable := cy.get ".product_sort_container".

(** Métodos dinâmicos para produtos *)
Definition getAddToCartButton (this : Ref) (productId : JSValue) : M Chainable :=
  cy.get ("[data-test=" +:+ dq +:+ "add-to-cart-" +:+ ToString productId +:+ dq +:+ "]").

Definition getRemoveButton (this : Ref) (productId : JSValue) : M Chainable :=
  cy.get ("[data-test=" +:+ dq +:+ "remove-" +:+ ToString productId +:+ dq +:+ "]").

Definition getProductTitle (this : Ref) (productId : JSValue) : M Chainable :=
  cy.get ("#item_" +:+ ToString productId +:+ "_title_link").

Definition getProductPrice (this : Ref) (productId : JSValue) : M Chainable :=
  cy.get (".inventory_item:has([data-test=" +:+ dq +:+ "add-to-cart-"
          +:+ ToString productId +:+ dq +:+ "]) .inventory_item_price").

Definition getProductImage (this : Ref) (productId : JSValue) : M Chainable :=
  cy.get ("#item_" +:+ ToString productId +:+ "_img_link img").

(** Ações da página *)
Definition addProductToCart (this : Ref) (productId : JSValue) : M Ref :=
  b <- getAddToCartButton this productId ;;
  chain.click b ;;
  ret this.

Definition removeProductFromCart (this : Ref) (productId : JSValue) : M Ref :=
  b <- getRemoveButton this productId ;;
  chain.click b ;;
  ret this.

Definition goToCart (this : Ref) : M Ref :=
  i <- cartIcon this ;;
  chain.click i ;;
  ret this.

Definition openMenu (this : Ref) : M Ref :=
  b <- menuButton this ;;
  chain.click b ;;
  ret this.

Definition logout (this : Ref) : M Ref :=
  openMenu this ;;
  l <- logoutLink this ;;
  chain.click l ;;
  ret this.

Definition sortProducts (this : Ref) (option : JSValue) : M Ref :=
  d <- sortDropdown this ;;
  chain.select d option ;;
  ret this.

Definition clickProductTitle (this : Ref) (productId : JSValue) : M Ref :=
  t <- getProductTitle this productId ;;
  chain.click t ;;
  ret this.

(** Validações *)
Definition shouldHaveTitle (this : Ref) (title : JSValue) : M Ref :=
  t <- pageTitle this ;;
  chain.should t "contain" [title] ;;
  ret this.

Definition shouldShowCartBadge (this : Ref) (count : JSValue) : M Ref :=
  b <- cartBadge this ;;
  s <- lift (toString count) ;;
  chain.should b "contain" [JStr s] ;;
  ret this.

Definition shouldNotShowCartBadge (this : Ref) : M Ref :=
  b <- cartBadge this ;;
  chain.should b "not.exist" [] ;;
  ret this.

Definition shouldHaveProductCount (this : Ref) (count : JSValue) : M Ref :=
  i <- inventoryItems this ;;
  chain.should i "have.length" [count] ;;
  ret this.

Definition shouldShowProduct (this : Ref) (productId : JSValue) : M Ref :=
  b <- getAddToCartButton this productId ;;
  chain.should b "exist" [] ;;
  ret this.
End InventoryPage.

(** ** cypress/pages/CartPage.js *)

Module CartPage.
(** Elementos da página *)
Definition pageTitle (this : Ref) : M Chainable := cy.get ".title".
Definition cartItems (this : Ref) : M Chainable := cy.get ".cart_item".
Definition checkoutButton (this : Ref) : M Chainable := cy.get "#checkout".
Definition continueShoppingButton (this : Ref) : M Chainable :=
  cy.get "#continue-shopping".
Definition cartQuantity (this : Ref) : M Chainable := cy.get ".cart_quantity".

(** Métodos para itens específicos *)
Definition getCartItem (this : Ref) (productName : JSValue) : M Chainable :=
  g <- cy.get ".cart_item" ;;
  c <- chain.contains g ".inventory_item_name" productName ;;
  chain.parent c ".cart_item".

Definition getRemoveButton (this : Ref) (productName : JSValue) : M Chainable :=
  i <- getCartItem this productName ;;
  chain.find i ("button[id*=" +:+ quoted "remove" +:+ "]").

Definition getItemQuantity (this : Ref) (productName : JSValue) : M Chainable :=
  i <- getCartItem this productName ;;
  chain.find i ".cart_quantity".

Definition getItemPrice (this : Ref) (productName : JSValue) : M Chainable :=
  i <- getCartItem this productName ;;
  chain.find i ".inventory_item_price".

(** Ações da página *)
Definition removeItem (this : Ref) (productName : JSValue) : M Ref :=
  b <- getRemoveButton this productName ;;
  chain.click b ;;
  ret this.

Definition proceedToCheckout (this : Ref) : M Ref :=
  b <- checkoutButton this ;;
  chain.click b ;;
  ret this.

Definition continueShopping (this : Ref) : M Ref :=
  b <- continueShoppingButton this ;;
  chain.click b ;;
  ret this.

(** Validações *)
Definition shouldHaveTitle (this : Ref) (title : JSValue) : M Ref :=
  t <- pageTitle this ;;
  chain.should t "contain" [title] ;;
  ret this.

Definition shouldHaveItemCount (this : Ref) (count : JSValue) : M Ref :=
  (if strict_eq_num count 0
   then i <- cartItems this ;;
        chain.should i "not.exist" []
   else i <- cartItems this ;;
        chain.should i "have.length" [count]) ;;
  ret this.

Definition shouldContainProduct (this : Ref) (productName : JSValue) : M Ref :=
  i <- getCartItem this productName ;;
  chain.should i "exist" [] ;;
  ret this.

Definition shouldNotContainProduct (this : Ref) (productName : JSValue) : M Ref :=
  n <- cy.get ".cart_item .inventory_item_name" ;;
  chain.should n "not.contain" [productName] ;;
  ret this.

Definition shouldShowCorrectPrice (this : Ref) (productName expectedPrice : JSValue)
  : M Ref :=
  p <- getItemPrice this productName ;;
  chain.should p "contain" [expectedPrice] ;;
  ret this.
End CartPage.

(** ** The methods, as data *)

(** Every method under "Ações da página" and "Validações" of the three
    classes, with its arguments, so that statements can range over all
    of them. *)
Inductive LoginMethod :=
| LP_visit
| LP_fillUsername (username : JSValue)
| LP_fillPassword (password : JSValue)
| LP_clickLogin
| LP_clearError
| LP_login (username password : JSValue)
| LP_shouldShowError (message : JSValue)
| LP_shouldRedirectToInventory
| LP_shouldBeOnLoginPage.

Inductive InventoryMethod :=
| IP_addProductToCart (productId : JSValue)
| IP_removeProductFromCart (productId : JSValue)
| IP_goToCart
| IP_openMenu
| IP_logout
| IP_sortProducts (option : JSValue)
| IP_clickProductTitle (productId : JSValue)
| IP_shouldHaveTitle (title : JSValue)
| IP_shouldShowCartBadge (count : JSValue)
| IP_shouldNotShowCartBadge
| IP_shouldHaveProductCount (count : JSValue)
| IP_shouldShowProduct (productId : JSValue).

Inductive CartMethod :=
| CP_removeItem (productName : JSValue)
| CP_proceedToCheckout
| CP_continueShopping
| CP_shouldHaveTitle (title : JSValue)
| CP_shouldHaveItemCount (count : JSValue)
| CP_shouldContainProduct (productName : JSValue)
| CP_shouldNotContainProduct (productName : JSValue)
| CP_shouldShowCorrectPrice (productName expectedPrice : JSValue).

Inductive Method :=
| OnLogin (m : LoginMethod)
| OnInventory (m : InventoryMethod)
| OnCart (m : CartMethod).

(** [this.m(args)]. *)
Definition call (this : Ref) (m : Method) : M Ref :=
  match m with
  | OnLogin LP_visit => LoginPage.visit this
  | OnLogin (LP_fillUsername u) => LoginPage.fillUsername this u
  | OnLogin (LP_fillPassword p) => LoginPage.fillPassword this p
  | OnLogin LP_clickLogin => LoginPage.clickLogin this
  | OnLogin LP_clearError => LoginPage.clearError this
  | OnLogin (LP_login u p) => LoginPage.login this u p
  | OnLogin (LP_shouldShowError msg) => LoginPage.shouldShowError this msg
  | OnLogin LP_shouldRedirectToInventory => LoginPage.shouldRedirectToInventory this
  | OnLogin LP_shouldBeOnLoginPage => LoginPage.shouldBeOnLoginPage this
  | OnInventory (IP_addProductToCart p) => InventoryPage.addProductToCart this p
  | OnInventory (IP_removeProductFromCart p) => InventoryPage.removeProductFromCart this p
  | OnInventory IP_goToCart => InventoryPage.goToCart this
  | OnInventory IP_openMenu => InventoryPage.openMenu this
  | OnInventory IP_logout => InventoryPage.logout this
  | OnInventory (IP_sortProducts o) => InventoryPage.sortProducts this o
  | OnInventory (IP_clickProductTitle p) => InventoryPage.clickProductTitle this p
  | OnInventory (IP_shouldHaveTitle t) => InventoryPage.shouldHaveTitle this t
  | OnInventory (IP_shouldShowCartBadge c) => InventoryPage.shouldShowCartBadge this c
  | OnInventory IP_shouldNotShowCartBadge => InventoryPage.shouldNotShowCartBadge this
  | OnInventory (IP_shouldHaveProductCount c) => InventoryPage.shouldHaveProductCount this c
  | OnInventory (IP_shouldShowProduct p) => InventoryPage.shouldShowProduct this p
  | OnCart (CP_removeItem n) => CartPage.removeItem this n
  | OnCart CP_proceedToCheckout => CartPage.proceedToCheckout this
  | OnCart CP_continueShopping => CartPage.continueShopping this
  | OnCart (CP_shouldHaveTitle t) => CartPage.shouldHaveTitle this t
  | OnCart (CP_shouldHaveItemCount c) => CartPage.shouldHaveItemCount this c
  | OnCart (CP_shouldContainProduct n) => CartPage.shouldContainProduct this n
  | OnCart (CP_shouldNotContainProduct n) => CartPage.shouldNotContainProduct this n
  | OnCart (CP_shouldShowCorrectPrice n p) => CartPage.shouldShowCorrectPrice this n p
  end.

(** A fluent chain [obj.m1(..).m2(..)...]: each call is made on what the
    call before it returned. The receivers are recorded. *)
Fixpoint call_chain (obj : Ref) (ms : list Method) : M (list Ref * Ref) :=
  match ms with
  | [] => ret ([], obj)
  | m :: rest =>
      r <- call obj m ;;
      p <- call_chain r rest ;;
      ret (obj :: fst p, snd p)
  end.

(** The methods listed under "Ações da página", as opposed to
    "Validações". *)
Definition is_action (m : Method) : bool :=
  match m with
  | OnLogin (LP_visit | LP_fillUsername _ | LP_fillPassword _ | LP_clickLogin
            | LP_clearError | LP_login _ _) => true
  | OnInventory (IP_addProductToCart _ | IP_removeProductFromCart _ | IP_goToCart
                | IP_openMenu | IP_logout | IP_sortProducts _
                | IP_clickProductTitle _) => true
  | OnCart (CP_removeItem _ | CP_proceedToCheckout | CP_continueShopping) => true
  | _ => false
  end.

(** The engine commands that act on the page, as opposed to queries and
    assertions. *)
Definition is_interaction (op : Op) : bool :=
  match op with
  | Visit _ | Clear | Type_ _ | Click | Select _ => true
  | _ => false
  end.

Definition interactions (ops : list Op) : nat :=
  length (filter (fun op => is_interaction op = true) ops).

(** The element accessors of the three classes: the getters and the
    [get...] methods. *)
Inductive Accessor :=
| LP_usernameField | LP_passwordField | LP_loginButton | LP_errorMessage
| LP_errorButton
| IP_pageTitle | IP_cartBadge | IP_cartIcon | IP_menuButton | IP_logoutLink
| IP_inventoryItems | IP_sortDropdown
| IP_getAddToCartButton (productId : JSValue)
| IP_getRemoveButton (productId : JSValue)
| IP_getProductTitle (productId : JSValue)
| IP_getProductPrice (productId : JSValue)
| IP_getProductImage (productId : JSValue)
| CP_pageTitle | CP_cartItems | CP_checkoutButton | CP_continueShoppingButton
| CP_cartQuantity
| CP_getCartItem (productName : JSValue)
| CP_getRemoveButton (productName : JSValue)
| CP_getItemQuantity (productName : JSValue)
| CP_getItemPrice (productName : JSValue).

Definition access (this : Ref) (a : Accessor) : M Chainable :=
  match a with
  | LP_usernameField => LoginPage.usernameField this
  | LP_passwordField => LoginPage.passwordField this
  | LP_loginButton => LoginPage.loginButton this
  | LP_errorMessage => LoginPage.errorMessage this
  | LP_errorButton => LoginPage.errorButton this
  | IP_pageTitle => InventoryPage.pageTitle this
  | IP_cartBadge => InventoryPage.cartBadge this
  | IP_cartIcon => InventoryPage.cartIcon this
  | IP_menuButton => InventoryPage.menuButton this
  | IP_logoutLink => InventoryPage.logoutLink this
  | IP_inventoryItems => InventoryPage.inventoryItems this
  | IP_sortDropdown => InventoryPage.sortDropdown this
  | IP_getAddToCartButton p => InventoryPage.getAddToCartButton this p
  | IP_getRemoveButton p => InventoryPage.getRemoveButton this p
  | IP_getProductTitle p => InventoryPage.getProductTitle this p
  | IP_getProductPrice p => InventoryPage.getProductPrice this p
  | IP_getProductImage p => InventoryPage.getProductImage this p
  | CP_pageTitle => CartPage.pageTitle this
  | CP_cartItems => CartPage.cartItems this
  | CP_checkoutButton => CartPage.checkoutButton this
  | CP_continueShoppingButton => CartPage.continueShoppingButton this
  | CP_cartQuantity => CartPage.cartQuantity this
  | CP_getCartItem n => CartPage.getCartItem this n
  | CP_getRemoveButton n => CartPage.getRemoveButton this n
  | CP_getItemQuantity n => CartPage.getItemQuantity this n
  | CP_getItemPrice n => CartPage.getItemPrice this n
  end.

(** ** cypress/support/commands.js *)

Module Cypress.
Module Commands.
(** [Cypress.Commands.add(name, fn)]: one more registration. *)
Definition add (name : CommandName) (fn : CommandFn) : M unit :=
  fun st =>
    Ok (tt,
        {| heap := heap st; registry := (name, fn) :: registry st;
           listeners := listeners st |},
        []).
End Commands.
End Cypress.

(** The [i]-th positional parameter; a missing one is [undefined]. *)
Definition arg (args : list JSValue) (i : nat) : JSValue := nth i args JUndefined.

(** [f] called on each item in turn. *)
Fixpoint each_item (f : JSValue -> M unit) (l : list JSValue) : M unit :=
  match l with
  | [] => ret tt
  | x :: rest => f x ;; each_item f rest
  end.

(** [v.forEach(f)]. *)
Definition forEach (v : JSValue) (f : JSValue -> M unit) : M unit :=
  match v with
  | JArr l => each_item f l
  | JUndefined =>
      throw (TypeError "Cannot read properties of undefined (reading 'forEach')")
  | JNull =>
      throw (TypeError "Cannot read properties of null (reading 'forEach')")
  | _ => throw (TypeError "products.forEach is not a function")
  end.

(** [$subject.find(selector)] (jQuery). *)
Definition jq_find (s : Subject) (selector : string) : list Element :=
  match s with
  | SElems els => flat_map (fun e => el_find e selector) els
  | _ => []
  end.

Module commands.
(** [import LoginPage from '../pages/LoginPage'] and
    [import InventoryPage from '../pages/InventoryPage']. *)
Definition imports : gmap string Class :=
  {[ "LoginPage" := ClsLoginPage; "InventoryPage" := ClsInventoryPage ]}.

(** Comando para login rápido *)
Definition loginAsStandardUser (args : list JSValue) : M unit :=
  loginPage <- new imports "LoginPage" ;;
  p <- LoginPage.visit loginPage ;;
  p <- LoginPage.login p (JStr "standard_user") (JStr "secret_sauce") ;;
  LoginPage.shouldRedirectToInventory p ;;
  ret tt.

(** Comando para login com usuário específico *)
Definition loginAs (args : list JSValue) : M unit :=
  let username := arg args 0 in
  let password := arg args 1 in
  loginPage <- new imports "LoginPage" ;;
  p <- LoginPage.visit loginPage ;;
  LoginPage.login p username password ;;
  ret tt.

(** Comando para adicionar produto usando Page Object *)
Definition addProductViaUI (args : list JSValue) : M unit :=
  let productId := arg args 0 in
  inventoryPage <- new imports "InventoryPage" ;;
  InventoryPage.addProductToCart inventoryPage productId ;;
  ret tt.

(** Comando para limpar carrinho completamente *)
Definition clearCart (args : list JSValue) : M unit :=
  inventoryPage <- new imports "InventoryPage" ;;
  cartPage <- new imports "CartPage" ;;
  InventoryPage.goToCart inventoryPage ;;
  b <- cy.get "body" ;;
  chain.then_ b (fun body =>
    if 0 <? length (jq_find body ".cart_item")
    then n <- cy.get ".cart_item .inventory_item_name" ;;
         chain.each n (fun item =>
           let productName := JStr (el_text item) in
           CartPage.removeItem cartPage productName ;;
           ret tt) ;;
         ret tt
    else ret tt) ;;
  ret tt.

(** Comando para setup de teste com produtos no carrinho *)
Definition setupCartWithProducts (args : list JSValue) : M unit :=
  let products := arg args 0 in
  cy.custom cmd_loginAsStandardUser [] ;;
  inventoryPage <- new imports "InventoryPage" ;;
  forEach products (fun productId =>
    InventoryPage.addProductToCart inventoryPage productId ;;
    ret tt).

(** The body behind each registered function. *)
Definition body (fn : CommandFn) : list JSValue -> M unit :=
  match fn with
  | LoginAsStandardUserFn => loginAsStandardUser
  | LoginAsFn => loginAs
  | AddProductViaUIFn => addProductViaUI
  | ClearCartFn => clearCart
  | SetupCartWithProductsFn => setupCartWithProducts
  end.

(** Evaluating the module: the five top-level statements. *)
Definition load : M unit :=
  Cypress.Commands.add cmd_loginAsStandardUser LoginAsStandardUserFn ;;
  Cypress.Commands.add cmd_loginAs LoginAsFn ;;
  Cypress.Commands.add cmd_addProductViaUI AddProductViaUIFn ;;
  Cypress.Commands.add cmd_clearCart ClearCartFn ;;
  Cypress.Commands.add cmd_setupCartWithProducts SetupCartWithProductsFn.
End commands.

(** Nothing allocated, nothing registered, nobody listening. *)
Definition empty_store : Store := {| heap := []; registry := []; listeners := [] |}.

(** The store once the support file has been evaluated. *)
Definition loaded_store : Store :=
  match commands.load empty_store with
  | Ok (_, st, _) | Throw _ st _ => st
  end.

(** ** cypress/e2e/login-with-page-objects.cy.js *)

Module login_spec.
Definition imports : gmap string Class :=
  {[ "LoginPage" := ClsLoginPage; "InventoryPage" := ClsInventoryPage ]}.

(** The two [const]s of the [describe] block, shared by its scenarios. *)
Record Pages := mkPages { loginPage : Ref; inventoryPage : Ref }.

Definition describe : M Pages :=
  lp <- new imports "LoginPage" ;;
  ip <- new imports "InventoryPage" ;;
  ret {| loginPage := lp; inventoryPage := ip |}.

Definition beforeEach (p : Pages) : M unit :=
  LoginPage.visit (loginPage p) ;;
  ret tt.

(** 'Deve fazer login com credenciais válidas' *)
Definition it_valid_credentials (p : Pages) : M unit :=
  l <- LoginPage.login (loginPage p) (JStr "standard_user") (JStr "secret_sauce") ;;
  LoginPage.shouldRedirectToInventory l ;;
  i <- InventoryPage.shouldHaveTitle (inventoryPage p) (JStr "Products") ;;
  InventoryPage.shouldHaveProductCount i (JNum 6) ;;
  ret tt.

(** 'Deve mostrar erro para credenciais inválidas' *)
Definition it_invalid_credentials (p : Pages) : M unit :=
  l <- LoginPage.login (loginPage p) (JStr "invalid_user") (JStr "wrong_password") ;;
  LoginPage.shouldShowError l (JStr "Username and password do not match") ;;
  ret tt.

(** 'Deve mostrar erro para campos vazios' *)
Definition it_empty_fields (p : Pages) : M unit :=
  l <- LoginPage.clickLogin (loginPage p) ;;
  LoginPage.shouldShowError l (JStr "Username is required") ;;
  ret tt.

(** 'Deve limpar erro ao clicar no X' *)
Definition it_clear_error (p : Pages) : M unit :=
  l <- LoginPage.login (loginPage p) (JStr "invalid_user") (JStr "wrong_password") ;;
  l <- LoginPage.shouldShowError l JUndefined ;;
  LoginPage.clearError l ;;
  e <- LoginPage.errorMessage (loginPage p) ;;
  chain.should e "not.exist" [] ;;
  ret tt.

(** 'Deve fazer logout corretamente' *)
Definition it_logout (p : Pages) : M unit :=
  l <- LoginPage.login (loginPage p) (JStr "standard_user") (JStr "secret_sauce") ;;
  LoginPage.shouldRedirectToInventory l ;;
  InventoryPage.logout (inventoryPage p) ;;
  LoginPage.shouldBeOnLoginPage (loginPage p) ;;
  ret tt.

Definition scenarios : list (Pages -> M unit) :=
  [it_valid_credentials; it_invalid_credentials; it_empty_fields;
   it_clear_error; it_logout].
End login_spec.

(** ** cypress/e2e/shopping-with-page-objects.cy.js *)

Module shopping_spec.
Definition imports : gmap string Class :=
  {[ "LoginPage" := ClsLoginPage; "InventoryPage" := ClsInventoryPage;
     "CartPage" := ClsCartPage ]}.

Record Pages := mkPages { loginPage : Ref; inventoryPage : Ref; cartPage : Ref }.

Definition describe : M Pages :=
  lp <- new imports "LoginPage" ;;
  ip <- new imports "InventoryPage" ;;
  cp <- new imports "CartPage" ;;
  ret {| loginPage := lp; inventoryPage := ip; cartPage := cp |}.

(** Login antes de cada teste *)
Definition beforeEach (p : Pages) : M unit :=
  cy.custom cmd_loginAsStandardUser [] ;;
  ret tt.

(** 'Deve adicionar produto ao carrinho' *)
Definition it_add_product (p : Pages) : M unit :=
  i <- InventoryPage.addProductToCart (inventoryPage p) (JStr "sauce-labs-backpack") ;;
  InventoryPage.shouldShowCartBadge i (JNum 1) ;;
  ret tt.

(** 'Deve adicionar múltiplos produtos' *)
Definition it_add_multiple (p : Pages) : M unit :=
  i <- InventoryPage.addProductToCart (inventoryPage p) (JStr "sauce-labs-backpack") ;;
  i <- InventoryPage.addProductToCart i (JStr "sauce-labs-bike-light") ;;
  i <- InventoryPage.addProductToCart i (JStr "sauce-labs-bolt-t-shirt") ;;
  InventoryPage.shouldShowCartBadge i (JNum 3) ;;
  ret tt.

(** 'Deve remover produto do inventário' *)
Definition it_remove_from_inventory (p : Pages) : M unit :=
  i <- InventoryPage.addProductToCart (inventoryPage p) (JStr "sauce-labs-backpack") ;;
  i <- InventoryPage.shouldShowCartBadge i (JNum 1) ;;
  i <- InventoryPage.removeProductFromCart i (JStr "sauce-labs-backpack") ;;
  InventoryPage.shouldNotShowCartBadge i ;;
  ret tt.

(** 'Deve visualizar carrinho com produtos' *)
Definition it_view_cart (p : Pages) : M unit :=
  i <- InventoryPage.addProductToCart (inventoryPage p) (JStr "sauce-labs-backpack") ;;
  i <- InventoryPage.addProductToCart i (JStr "sauce-labs-bike-light") ;;
  InventoryPage.goToCart i ;;
  c <- CartPage.shouldHaveTitle (cartPage p) (JStr "Your Cart") ;;
  c <- CartPage.shouldHaveItemCount c (JNum 2) ;;
  c <- CartPage.shouldContainProduct c (JStr "Sauce Labs Backpack") ;;
  CartPage.shouldContainProduct c (JStr "Sauce Labs Bike Light") ;;
  ret tt.

(** 'Deve remover produto do carrinho' *)
Definition it_remove_from_cart (p : Pages) : M unit :=
  i <- InventoryPage.addProductToCart (inventoryPage p) (JStr "sauce-labs-backpack") ;;
  InventoryPage.goToCart i ;;
  c <- CartPage.shouldHaveItemCount (cartPage p) (JNum 1) ;;
  c <- CartPage.removeItem c (JStr "Sauce Labs Backpack") ;;
  CartPage.shouldHaveItemCount c (JNum 0) ;;
  ret tt.

(** 'Deve continuar comprando do carrinho' *)
Definition it_continue_shopping (p : Pages) : M unit :=
  i <- InventoryPage.addProductToCart (inventoryPage p) (JStr "sauce-labs-backpack") ;;
  InventoryPage.goToCart i ;;
  CartPage.continueShopping (cartPage p) ;;
  i <- InventoryPage.shouldHaveTitle (inventoryPage p) (JStr "Products") ;;
  InventoryPage.shouldShowCartBadge i (JNum 1) ;;
  ret tt.

(** 'Fluxo completo: Adicionar, Ver Carrinho, Continuar Comprando, Checkout' *)
Definition it_full_flow (p : Pages) : M unit :=
  (* Adicionar produtos *)
  i <- InventoryPage.addProductToCart (inventoryPage p) (JStr "sauce-labs-backpack") ;;
  InventoryPage.addProductToCart i (JStr "sauce-labs-bike-light") ;;
  (* Ver carrinho *)
  InventoryPage.goToCart (inventoryPage p) ;;
  c <- CartPage.shouldHaveItemCount (cartPage p) (JNum 2) ;;
  CartPage.shouldContainProduct c (JStr "Sauce Labs Backpack") ;;
  (* Continuar comprando *)
  CartPage.continueShopping (cartPage p) ;;
  InventoryPage.addProductToCart (inventoryPage p) (JStr "sauce-labs-bolt-t-shirt") ;;
  (* Finalizar *)
  InventoryPage.goToCart (inventoryPage p) ;;
  c <- CartPage.shouldHaveItemCount (cartPage p) (JNum 3) ;;
  CartPage.proceedToCheckout c ;;
  (* Verificar redirecionamento *)
  u <- cy.url ;;
  chain.should u "include" [JStr "/checkout-step-one"] ;;
  ret tt.

Definition scenarios : list (Pages -> M unit) :=
  [it_add_product; it_add_multiple; it_remove_from_inventory; it_view_cart;
   it_remove_from_cart; it_continue_shopping; it_full_flow].
End shopping_spec.

(** ** The Automation Engine *)

(** The engine is not part of this repository. What follows is the part
    of Cypress's documented behaviour the code relies on: commands run in
    the order they were enqueued; a query must find at least one element
    unless the assertion chained to it is about existence or length; a
    command checks its arguments when it runs; an action needs an element
    to act on, and [click], [type] and [select] exactly one; the first
    command that fails ends the test, and that failure is what the
    listeners of the ['fail'] event receive. Polling is left out: a
    [Page] stands for what the engine sees once it stops retrying. How
    the application reacts to an action is a parameter ([App]). *)

Record App := mkApp {
  navigate : string -> Page -> option Page;
  respond : Op -> list Element -> Page -> Page
}.

(** Engine state: the live page, the subject of the current chain, and
    the JavaScript store the callbacks run in. *)
Record ES := mkES {
  page : Page;
  subject : Subject;
  store : Store
}.

Inductive Outcome :=
| Passed (es : ES)
| Failed (f : Failure) (es : ES)
| OutOfFuel.

Definition with_subject (es : ES) (s : Subject) : ES :=
  {| page := page es; subject := s; store := store es |}.

Definition with_page (es : ES) (p : Page) : ES :=
  {| page := p; subject := subject es; store := store es |}.

Definition with_store (es : ES) (st : Store) : ES :=
  {| page := page es; subject := subject es; store := st |}.

(** Chainers that replace the implicit "must exist" of a query. *)
Definition about_existence (chainer : string) : bool :=
  String.eqb chainer "not.exist" || String.eqb chainer "exist"
  || String.eqb chainer "have.length".

Definition waives_existence (next : option Op) : bool :=
  match next with
  | Some (Should chainer _) => about_existence chainer
  | _ => false
  end.

Definition is_nil {A} (l : list A) : bool :=
  match l with [] => true | _ => false end.

(** [.should(chainer, ...args)] on a subject. *)
Definition holds (chainer : string) (args : list JSValue) (s : Subject) : bool :=
  match s with
  | SElems els =>
      if String.eqb chainer "not.exist" then is_nil els
      else if String.eqb chainer "exist" then negb (is_nil els)
      else if String.eqb chainer "have.length" then
        match args with
        | [JNum n] => (Z.of_nat (length els) =? n)%Z
        | _ => false
        end
      else if String.eqb chainer "be.visible" then
        existsb el_visible els
      else if String.eqb chainer "contain" then
        match args with
        | [v] => existsb (fun e => includes (el_text e) (ToString v)) els
        | _ => false
        end
      else if String.eqb chainer "not.contain" then
        match args with
        | [v] => negb (is_nil els)
                 && negb (existsb (fun e => includes (el_text e) (ToString v)) els)
        | _ => false
        end
      else false
  | SText t =>
      if String.eqb chainer "include" then
        match args with
        | [v] => includes t (ToString v)
        | _ => false
        end
      else false
  | SNone => false
  end.

(** A query yields the elements it found. *)
Definition yield (next : option Op) (selector : string) (els : list Element)
    (es : ES) : Outcome :=
  if is_nil els && negb (waives_existence next)
  then Failed (ElementNotFound selector) es
  else Passed (with_subject es (SElems els)).

(** A query relative to the current subject. *)
Definition within (next : option Op) (selector : string)
    (f : list Element -> list Element) (es : ES) : Outcome :=
  match subject es with
  | SElems els => yield next selector (f els) es
  | _ => Failed NoElementSubject es
  end.

(** Run the commands a callback or command body enqueued, then go on. If
    it threw, the failure comes before any of them runs. *)
Definition nested (rec : list Op -> ES -> Outcome)
    (r : Result Op (unit * Store * list Op)) (es : ES) : Outcome :=
  match r with
  | Throw e st _ => Failed (UncaughtException e) (with_store es st)
  | Ok (_, st, ops) => rec ops (with_store es st)
  end.

(** What [cy.contains] takes as content and [cy.type] as text: a number
    or a string that is not empty. *)
Definition valid_content (v : JSValue) : bool :=
  match v with
  | JNum _ => true
  | JStr EmptyString => false
  | JStr _ => true
  | _ => false
  end.

Definition valid_text (v : JSValue) : bool :=
  match v with
  | JNum _ => true
  | JStr EmptyString => false
  | JStr _ => true
  | _ => false
  end.

(** What [cy.select] takes: a value, an index or an array of them. *)
Definition valid_option (v : JSValue) : bool :=
  match v with
  | JStr _ | JNum _ | JArr _ => true
  | _ => false
  end.

(** An action on the subject: the application reacts to it. [clear]
    goes through every element of the subject. *)
Definition act (app : App) (op : Op) (es : ES) : Outcome :=
  match subject es with
  | SElems (e :: els) => Passed (with_page es (respond app op (e :: els) (page es)))
  | _ => Failed NoElementSubject es
  end.

(** An action that takes one element only. *)
Definition act_on_one (app : App) (command : string) (op : Op) (es : ES) : Outcome :=
  match subject es with
  | SElems ((_ :: _ :: _) as els) => Failed (MultipleElements command (length els)) es
  | _ => act app op es
  end.

Fixpoint each_element (rec : list Op -> ES -> Outcome)
    (callback : Element -> Store -> Result Op (unit * Store * list Op))
    (els : list Element) (es : ES) : Outcome :=
  match els with
  | [] => Passed es
  | e :: rest =>
      match nested rec (callback e (store es)) es with
      | Passed es' => each_element rec callback rest es'
      | o => o
      end
  end.

(** One command. [next] is the command enqueued after it; [rec] runs
    commands enqueued while this one executes. *)
Definition step (rec : list Op -> ES -> Outcome) (app : App)
    (op : Op) (next : option Op) (es : ES) : Outcome :=
  match op with
  | Visit url =>
      match navigate app url (page es) with
      | Some p => Passed {| page := p; subject := SNone; store := store es |}
      | None => Failed (NavigationTimeout url) es
      end
  | Get selector => yield next selector (query (page es) selector) es
  | Url => Passed (with_subject es (SText (page_url (page es))))
  | Contains selector content =>
      if valid_content content
      then within next selector
             (fun els =>
                take 1 (filter (fun c => includes (el_text c) (ToString content) = true)
                               (flat_map (fun e => el_find e selector) els))) es
      else Failed (InvalidArgument "contains" content) es
  | Parent selector =>
      within next selector (flat_map (fun e => el_parent e selector)) es
  | Find selector =>
      within next selector (flat_map (fun e => el_find e selector)) es
  | Clear => act app op es
  | Type_ text =>
      if valid_text text then act_on_one app "type" op es
      else Failed (InvalidArgument "type" text) es
  | Click => act_on_one app "click" op es
  | Select option =>
      if valid_option option then act_on_one app "select" op es
      else Failed (InvalidArgument "select" option) es
  | Should chainer args =>
      if holds chainer args (subject es) then Passed es
      else Failed (AssertionFailure chainer args) es
  | Then callback =>
      match nested rec (callback (subject es) (store es)) es with
      | Passed es' => Passed (with_subject es' (subject es))
      | o => o
      end
  | Each callback =>
      match subject es with
      | SElems els =>
          match each_element rec callback els es with
          | Passed es' => Passed (with_subject es' (subject es))
          | o => o
          end
      | _ => Failed NoElementSubject es
      end
  | Custom name args =>
      match lookup_command name (registry (store es)) with
      | Some fn => nested rec (commands.body fn args (store es)) (with_subject es SNone)
      | None =>
          Failed (UncaughtException
                    (TypeError ("cy." +:+ command_text name +:+ " is not a function")))
            es
      end
  end.

(** The queue: commands in order, the first failure ends the run. *)
Fixpoint run_ops (rec : list Op -> ES -> Outcome) (app : App)
    (ops : list Op) (es : ES) : Outcome :=
  match ops with
  | [] => Passed es
  | op :: rest =>
      match step rec app op (head rest) es with
      | Passed es' => run_ops rec app rest es'
      | o => o
      end
  end.

(** [fuel] bounds how deeply commands enqueue commands. *)
Fixpoint run (fuel : nat) (app : App) (ops : list Op) (es : ES) : Outcome :=
  match fuel with
  | O => OutOfFuel
  | S fuel' => run_ops (run fuel' app) app ops es
  end.

(** A hook or test body: it runs to completion, enqueuing commands; the
    engine then runs them. An exception in the body fails the test, and
    nothing of what it had enqueued runs. *)
Definition run_body (fuel : nat) (app : App) (body : M unit) (es : ES) : Outcome :=
  match body (store es) with
  | Throw e st _ => Failed (UncaughtException e) (with_store es st)
  | Ok (_, st, ops) => run fuel app ops {| page := page es; subject := SNone; store := st |}
  end.

(** The hooks and the body of a test, one after the other. *)
Fixpoint run_bodies (fuel : nat) (app : App) (bodies : list (M unit)) (es : ES)
  : Outcome :=
  match bodies with
  | [] => Passed es
  | b :: rest =>
      match run_body fuel app b es with
      | Passed es' => run_bodies fuel app rest es'
      | o => o
      end
  end.

(** A failure is handed to the listeners in the order they were
    registered. The first one that throws ends the round, and the test
    fails with what it threw; if none throws, the failure is gone. *)
Fixpoint hand_over (ls : list FailListener) (f : Failure) : option Failure :=
  match ls with
  | [] => None
  | l :: rest =>
      match l f with
      | Some f' => Some f'
      | None => hand_over rest f
      end
  end.

(** The verdict on a test. With nobody listening a failure stands; with
    listeners, a failure they all let go is a pass. *)
Definition settle (o : Outcome) : Outcome :=
  match o with
  | Failed f es =>
      match listeners (store es) with
      | [] => Failed f es
      | ls =>
          match hand_over ls f with
          | Some f' => Failed f' es
          | None => Passed es
          end
      end
  | Passed es => Passed es
  | OutOfFuel => OutOfFuel
  end.

(** A scenario is its hooks followed by its body; the test fails with
    what the listeners make of the first failure. *)
Definition run_test (fuel : nat) (app : App) (bodies : list (M unit)) (es : ES)
  : Outcome :=
  settle (run_bodies fuel app bodies es).

(** The outcome of a single computation of this layer on a page. *)
Definition check {A} (fuel : nat) (app : App) (m : M A) (es : ES) : Outcome :=
  run_body fuel app (m ;; ret tt) es.

Definition passes (o : Outcome) : bool :=
  match o with Passed _ => true | _ => false end.

(** ** Scenarios as sequences of steps *)

(** A step of a scenario: a method call on a Page Object, or a Custom
    Command called by name. *)
Inductive Step :=
| CallStep (obj : Ref) (m : Method)
| CommandStep (name : CommandName) (args : list JSValue).

Definition do_step (s : Step) : M unit :=
  match s with
  | CallStep obj m => call obj m ;; ret tt
  | CommandStep name args => cy.custom name args ;; ret tt
  end.

Fixpoint scenario (steps : list Step) : M unit :=
  match steps with
  | [] => ret tt
  | s :: rest => do_step s ;; scenario rest
  end.

(** ** Predicates used in the statements *)

(** The one call whose argument is dereferenced before anything is
    returned: [shouldShowCartBadge(count)] evaluates [count.toString()]. *)
Definition nullish_count (m : Method) : bool :=
  match m with
  | OnInventory (IP_shouldShowCartBadge (JUndefined | JNull)) => true
  | _ => false
  end.

(** An assertion that some element shows the text "0". *)
Definition asserts_badge_zero (op : Op) : bool :=
  match op with
  | Should chainer [JStr s] => String.eqb chainer "contain" && String.eqb s "0"
  | _ => false
  end.

(** A query for a remove button: the templated one of the inventory
    page, or the one inside a cart item. *)
Definition queries_remove (op : Op) : bool :=
  match op with
  | Get selector => String.prefix ("[data-test=" +:+ dq +:+ "remove-") selector
  | Find selector => String.eqb selector ("button[id*=" +:+ quoted "remove" +:+ "]")
  | _ => false
  end.

(** What is enqueued after the first query for a remove button. *)
Fixpoint after_removal (ops : list Op) : list Op :=
  match ops with
  | [] => []
  | op :: rest => if queries_remove op then rest else after_removal rest
  end.

(** A check of the count on the badge: the badge query with ['contain']
    chained to it. *)
Fixpoint checks_badge_count (ops : list Op) : bool :=
  match ops with
  | [] => false
  | op :: rest =>
      match op, rest with
      | Get selector, Should chainer _ :: _ =>
          String.eqb selector ".shopping_cart_badge" && String.eqb chainer "contain"
          || checks_badge_count rest
      | _, _ => checks_badge_count rest
      end
  end.

(** Commands without a callback. *)
Definition plain (op : Op) : bool :=
  match op with Then _ | Each _ => false | _ => true end.

(** Commands that enqueue nothing when they run. *)
Definition flat (op : Op) : bool :=
  match op with Then _ | Each _ | Custom _ _ => false | _ => true end.

(** Custom Commands whose body calls no further Custom Command, under
    the registry of [commands.load]. *)
Definition shallow (op : Op) : bool :=
  match op with
  | Custom name _ =>
      match lookup_command name (registry loaded_store) with
      | Some SetupCartWithProductsFn => false
      | _ => true
      end
  | _ => flat op
  end.

(** A hook or test body that leaves the registry and the listeners
    alone and enqueues no callback. *)
Definition quiet (body : M unit) : Prop :=
  forall st, match body st with
             | Ok (_, st', ops) | Throw _ st' ops =>
                 registry st' = registry st /\ listeners st' = listeners st
                 /\ forallb plain ops = true
             end.

(** The run came to an end, and the registry is what it was. *)
Definition keeps_registry (es : ES) (o : Outcome) : Prop :=
  match o with
  | Passed es' | Failed _ es' => registry (store es') = registry (store es)
  | OutOfFuel => False
  end.

(** The command came to an end with the store as it was. *)
Definition keeps_store (es : ES) (o : Outcome) : Prop :=
  match o with
  | Passed es' | Failed _ es' => store es' = store es
  | OutOfFuel => False
  end.

(** The listeners at the end of the run, if it came to one, are those
    of its start. *)
Definition keeps_listeners (es : ES) (o : Outcome) : Prop :=
  match o with
  | Passed es' | Failed _ es' => listeners (store es') = listeners (store es)
  | OutOfFuel => True
  end.

(** A listener that swallows whatever it is handed. *)
Definition swallow : FailListener := fun _ => None.

(** ** Pages to run the code on *)

(** An application that does not react. *)
Definition still : App :=
  {| navigate := fun _ p => Some p; respond := fun _ _ p => p |}.

Definition leaf (text : string) : Element :=
  {| el_text := text; el_visible := true;
     el_find := fun _ => []; el_parent := fun _ => [] |}.

Definition blank_page : Page :=
  {| page_url := "about:blank"; query := fun _ => [] |}.

(** The cart page with one item, badge showing 1. *)
Definition cart_with_backpack : Page :=
  {| page_url := "https://www.saucedemo.com/cart.html";
     query := fun selector =>
       if String.eqb selector ".cart_item" then [leaf "Sauce Labs Backpack"]
       else if String.eqb selector ".shopping_cart_badge" then [leaf "1"]
       else [] |}.

(** A page seen with the support file loaded. *)
Definition seen (p : Page) : ES :=
  {| page := p; subject := SNone; store := loaded_store |}.

(** Commands that only look at the page: queries and assertions. *)
Definition observes (op : Op) : bool :=
  match op with
  | Get _ | Url | Contains _ _ | Parent _ | Find _ | Should _ _ => true
  | _ => false
  end.

(** Assertions among the commands. *)
Definition is_assertion (op : Op) : bool :=
  match op with Should _ _ => true | _ => false end.

(** The run came to an end with the page and the store as they were. *)
Definition untouched (es : ES) (o : Outcome) : Prop :=
  match o with
  | Passed es' | Failed _ es' => page es' = page es /\ store es' = store es
  | OutOfFuel => False
  end.

(** A cart item with its remove button, as reached from its name; the
    name element; and the cart item as the page lists it. *)
Definition cart_row (text : string) : Element :=
  {| el_text := text; el_visible := true;
     el_find := fun selector =>
       if String.eqb selector ("button[id*=" +:+ quoted "remove" +:+ "]")
       then [leaf "Remove"] else [];
     el_parent := fun _ => [] |}.

Definition item_name (text : string) : Element :=
  {| el_text := text; el_visible := true;
     el_find := fun _ => [];
     el_parent := fun selector =>
       if String.eqb selector ".cart_item" then [cart_row text] else [] |}.

Definition cart_item (text : string) : Element :=
  {| el_text := text; el_visible := true;
     el_find := fun selector =>
       if String.eqb selector ".inventory_item_name" then [item_name text]
       else if String.eqb selector ("button[id*=" +:+ quoted "remove" +:+ "]")
            then [leaf "Remove"]
       else [];
     el_parent := fun _ => [] |}.

(** The cart page listing the given products. *)
Definition cart_page (names : list string) : Page :=
  {| page_url := "https://www.saucedemo.com/cart.html";
     query := fun selector =>
       if String.eqb selector ".cart_item" then map cart_item names
       else if String.eqb selector ".cart_item .inventory_item_name"
            then map item_name names
       else [] |}.

(** A page whose badge reads the given text. *)
Definition page_with_badge (text : string) : Page :=
  {| page_url := "https://www.saucedemo.com/inventory.html";
     query := fun selector =>
       if String.eqb selector ".shopping_cart_badge" then [leaf text] else [] |}.


(** * Properties *)

(** Case analysis over every method, with the branches of their bodies. *)
Ltac method_cases m :=
  destruct m as [[]|[]|[]];
  unfold call, CartPage.shouldHaveItemCount, LoginPage.shouldShowError,
    InventoryPage.shouldShowCartBadge;
  repeat match goal with
    | |- context [truthy ?v] => is_var v; destruct (truthy v)
    | |- context [strict_eq_num ?v ?n] => is_var v; destruct (strict_eq_num v n)
    | |- context [toString ?v] => is_var v; destruct v
    end; cbn.

(** ** Decimal strings *)

Lemma to_int_not_nil (n : Z) :
  Z.to_int n <> Decimal.Pos Decimal.Nil /\ Z.to_int n <> Decimal.Neg Decimal.Nil.
Proof.
  destruct n as [|p|p]; cbn; split; try discriminate;
    intros [= H]; exact (DecimalPos.Unsigned.to_uint_nonnil p H).
Qed.

Lemma decimal_inj (n m : Z) : decimal n = decimal m -> n = m.
Proof.
  unfold decimal. intros H.
  apply DecimalZ.to_int_inj.
  destruct (to_int_not_nil n) as [Hn1 Hn2], (to_int_not_nil m) as [Hm1 Hm2].
  pose proof (NilZero.isi _ Hn1 Hn2) as En.
  pose proof (NilZero.isi _ Hm1 Hm2) as Em.
  rewrite H in En. congruence.
Qed.

(** ** How numbers print *)

Lemma number_text_small (n : Z) : (Z.abs n < 2 ^ 53)%Z -> number_text n = decimal n.
Proof.
  intros H. unfold number_text.
  destruct (Z.ltb_spec (Z.abs n) (2 ^ 53)) as [_|Hge]; [reflexivity | lia].
Qed.

Lemma to_double_positive (v m e : Z) :
  (2 ^ 53 <= v)%Z -> to_double v = (m, e) -> (0 < m)%Z /\ (0 <= e)%Z.
Proof.
  intros Hv. unfold to_double.
  assert (53 <= Z.log2 v)%Z as Hlog.
  { change 53%Z with (Z.log2 (2 ^ 53)). apply Z.log2_le_mono, Hv. }
  assert (0 < v)%Z as Hpos by lia.
  pose proof (Z.log2_spec v Hpos) as [Hlow _].
  set (e0 := (Z.log2 v - 52)%Z) in *.
  assert (0 < 2 ^ e0)%Z as Hp by (apply Z.pow_pos_nonneg; lia).
  assert (2 ^ e0 <= v)%Z as Hle.
  { etransitivity; [|exact Hlow]. apply Z.pow_le_mono_r; lia. }
  assert (0 < v / 2 ^ e0)%Z as Hq by (apply Z.div_str_pos; lia).
  assert (0 < round_half_even v e0)%Z as Hm.
  { unfold round_half_even.
    destruct (v mod 2 ^ e0 <? 2 ^ (e0 - 1))%Z; [lia|].
    destruct (2 ^ (e0 - 1) <? v mod 2 ^ e0)%Z; [lia|].
    destruct (Z.even (v / 2 ^ e0)); lia. }
  destruct (round_half_even v e0 =? 2 ^ 53)%Z; intros [= <- <-]; lia.
Qed.

Lemma reads_back_positive (m e c : Z) :
  (0 < m)%Z -> (0 <= e)%Z -> reads_back m e c = true -> (0 < c)%Z.
Proof.
  intros Hm He. unfold reads_back.
  assert (0 < 2 ^ e)%Z as Hp by (apply Z.pow_pos_nonneg; lia).
  rewrite Z.pow_add_r by lia. change (2 ^ 1)%Z with 2%Z.
  assert (2 ^ e <= m * 2 ^ e)%Z as Hd by nia.
  destruct (m =? 2 ^ 52)%Z, (Z.even m);
    intros [H _]%andb_true_iff; first [apply Z.leb_le in H | apply Z.ltb_lt in H]; lia.
Qed.

Lemma shortest_positive (m e : Z) (j : nat) :
  (0 < m)%Z -> (0 <= e)%Z -> (0 < shortest m e j)%Z.
Proof.
  intros Hm He.
  assert (0 < m * 2 ^ e)%Z as Hd.
  { apply Z.mul_pos_pos; [exact Hm | apply Z.pow_pos_nonneg; lia]. }
  induction j as [|j IH]; cbn [shortest]; cbv zeta;
    match goal with
    | |- context [reads_back m e (?lo + ?p)] =>
        destruct (reads_back m e lo) eqn:Elo, (reads_back m e (lo + p)) eqn:Ehi
    end; cbn [andb];
    repeat match goal with
      | H : reads_back m e _ = true |- _ =>
          apply (reads_back_positive m e _ Hm He) in H
      end;
    repeat match goal with
      | |- context [if ?b then _ else _] => destruct b
      end; lia.
Qed.

Lemma exponent_form_not_zero (a : Ascii.ascii) (mid tail : string) :
  String a mid +:+ "e+" +:+ tail <> "0".
Proof.
  unfold String.app; cbn. intros [= _ H]. destruct mid; discriminate H.
Qed.

Lemma negative_text_not_zero (tail : string) : "-" +:+ tail <> "0".
Proof. unfold String.app; cbn. discriminate. Qed.

Lemma large_number_text_not_zero (v : Z) :
  (2 ^ 53 <= v)%Z -> large_number_text v <> "0".
Proof.
  intros Hv. unfold large_number_text.
  destruct (to_double v) as [m e] eqn:E.
  destruct (to_double_positive v m e Hv E) as [Hm He].
  destruct (2 ^ 1024 <=? m * 2 ^ e)%Z; [discriminate|].
  set (c := shortest m e _).
  pose proof (shortest_positive m e (digits_count 400 (m * 2 ^ e)) Hm He) as Hc.
  fold c in Hc.
  destruct (digits_count 400 c <=? 21)%nat.
  - change "0" with (decimal 0). intros H%decimal_inj. lia.
  - destruct (decimal (strip_zeros 400 c)) as [|a [|b s]];
      [discriminate | apply exponent_form_not_zero..].
Qed.

Lemma number_text_zero (n : Z) : number_text n = "0" -> n = 0%Z.
Proof.
  unfold number_text.
  destruct (Z.ltb_spec (Z.abs n) (2 ^ 53)) as [_|Hge].
  - change "0" with (decimal 0). apply decimal_inj.
  - destruct (Z.ltb_spec 0 n) as [Hpos|Hneg].
    + intros H. exfalso. apply (large_number_text_not_zero n); [lia | exact H].
    + intros H. exfalso. exact (negative_text_not_zero _ H).
Qed.

(** ** What a method call does to the store and returns *)

Lemma call_returns_this (this : Ref) (m : Method) (st : Store)
    (r : Ref) (st' : Store) (ops : list Op) :
  call this m st = Ok (r, st', ops) -> r = this /\ st' = st.
Proof.
  method_cases m; intros H; inversion H; auto.
Qed.

Lemma call_total (this : Ref) (m : Method) (st : Store) :
  nullish_count m = false -> exists ops, call this m st = Ok (this, st, ops).
Proof.
  method_cases m; intros H; try discriminate H; eexists; reflexivity.
Qed.

Lemma call_chain_total (this : Ref) (ms : list Method) (st : Store) :
  Forall (fun m => nullish_count m = false) ms ->
  exists ops, call_chain this ms st = Ok (repeat this (length ms), this, st, ops).
Proof.
  induction 1 as [|m ms Hm _ [ops IH]]; cbn.
  - eexists; reflexivity.
  - destruct (call_total this m st Hm) as [ops1 E1].
    unfold bind. rewrite E1, IH. cbn. eexists; reflexivity.
Qed.

Lemma call_flat (this : Ref) (m : Method) (st : Store) :
  match call this m st with
  | Ok (_, _, ops) | Throw _ _ ops => forallb flat ops = true
  end.
Proof. method_cases m; auto. Qed.

Lemma call_store (this : Ref) (m : Method) (st : Store) :
  match call this m st with
  | Ok (_, st', _) | Throw _ st' _ => st' = st
  end.
Proof. method_cases m; auto. Qed.

Lemma call_starts_chain (this : Ref) (m : Method) (st : Store) :
  match call this m st with
  | Ok (_, st', ops) =>
      st' = st /\ forall more, waives_existence (head (ops ++ more)) = false
  | Throw _ _ _ => True
  end.
Proof. method_cases m; auto. Qed.

Lemma access_requeries (this : Ref) (a : Accessor) (st : Store) :
  exists sel rest, access this a st = Ok (chainable, st, Get sel :: rest).
Proof. destruct a; cbn; eauto. Qed.

(** ** C1 *)

(** C1, as stated, fails: [shouldShowCartBadge(undefined)] evaluates
    [undefined.toString()], throws a TypeError and returns nothing, so
    not every call returns [this]. *)
Lemma shouldShowCartBadge_undefined_does_not_return :
  ~ (forall (this : Ref) (m : Method) (st : Store),
       returned (call this m) st = Some this).
Proof.
  intros H.
  specialize (H 0 (OnInventory (IP_shouldShowCartBadge JUndefined)) empty_store).
  discriminate H.
Qed.

(** C1 (amended). Every action and assertion method of the three Page
    Objects returns [this] whenever it returns, and it returns for every
    argument value except [InventoryPage.shouldShowCartBadge(count)] with
    [count] undefined or null, which throws the TypeError of
    [count.toString()] once the badge query is enqueued. So a chain of such calls that avoids that case
    runs to its end with every call made on the instance the chain
    started from, which is also what the chain returns, and the store is
    left as it was. *)
Theorem fluent_methods_return_this (this : Ref) (ms : list Method) (st : Store) :
  Forall (fun m => nullish_count m = false) ms ->
  (forall m, In m ms -> exists ops, call this m st = Ok (this, st, ops))
  /\ (exists ops,
        call_chain this ms st = Ok (repeat this (length ms), this, st, ops))
  /\ (forall m r st' ops, call this m st = Ok (r, st', ops) -> r = this)
  /\ (forall count,
        call this (OnInventory (IP_shouldShowCartBadge count)) st
        = match toString count with
          | Normal s => Ok (this, st, [Get ".shopping_cart_badge";
                                       Should "contain" [JStr s]])
          | Abrupt e => Throw e st [Get ".shopping_cart_badge"]
          end).
Proof.
  intros Hms. repeat split.
  - intros m Hin. apply call_total. rewrite Forall_forall in Hms. apply Hms.
    apply list_elem_of_In. exact Hin.
  - apply call_chain_total, Hms.
  - intros m r st' ops H. apply call_returns_this in H. tauto.
  - intros count. destruct count; reflexivity.
Qed.

Lemma fluent_methods_return_this_witness :
  Forall (fun m => nullish_count m = false)
    [OnLogin LP_visit;
     OnLogin (LP_login (JStr "standard_user") (JStr "secret_sauce"));
     OnLogin (LP_shouldShowError JUndefined)]
  /\ exists ops,
       call_chain 7
         [OnLogin LP_visit;
          OnLogin (LP_login (JStr "standard_user") (JStr "secret_sauce"));
          OnLogin (LP_shouldShowError JUndefined)] empty_store
       = Ok ([7; 7; 7], 7, empty_store, ops).
Proof.
  assert (Forall (fun m => nullish_count m = false)
            [OnLogin LP_visit;
             OnLogin (LP_login (JStr "standard_user") (JStr "secret_sauce"));
             OnLogin (LP_shouldShowError JUndefined)]) as H
    by (repeat constructor).
  split; [exact H|].
  exact (proj1 (proj2 (fluent_methods_return_this 7 _ empty_store H))).
Defined.

(** ** C2 *)

(** C2. For every expected count [n >= 0],
    [CartPage.shouldHaveItemCount(n)] returns [this] after querying
    [.cart_item] and chaining one assertion chosen by [n === 0]:
    ['not.exist'] when [n] is 0, [('have.length', n)] otherwise. On any
    page the call passes exactly when the page holds [n] cart items. *)
Theorem shouldHaveItemCount_branches_on_zero (this : Ref) (n : Z) (st : Store) :
  (0 <= n)%Z ->
  CartPage.shouldHaveItemCount this (JNum n) st
  = Ok (this, st,
        [Get ".cart_item";
         if (n =? 0)%Z then Should "not.exist" []
         else Should "have.length" [JNum n]])
  /\ forall fuel app es,
       passes (check (S fuel) app (CartPage.shouldHaveItemCount this (JNum n)) es)
       = true
       <-> Z.of_nat (length (query (page es) ".cart_item")) = n.
Proof.
  intros Hn. split.
  - unfold CartPage.shouldHaveItemCount, strict_eq_num.
    destruct (n =? 0)%Z; reflexivity.
  - intros fuel app es.
    unfold check, run_body, CartPage.shouldHaveItemCount, strict_eq_num.
    destruct (Z.eqb_spec n 0) as [->|Hne]; cbn.
    + unfold yield; cbn. destruct (query (page es) ".cart_item"); cbn;
        split; intros H; first [discriminate | reflexivity | lia | exfalso; lia].
    + unfold yield; cbn. destruct (query (page es) ".cart_item") as [|e els]; cbn;
        match goal with
        | |- context [(?a =? ?b)%Z] => destruct (Z.eqb_spec a b)
        end; cbn;
        split; intros H; first [discriminate | reflexivity | lia | exfalso; lia].
Qed.

Lemma shouldHaveItemCount_branches_on_zero_witness :
  ((0 <= 0)%Z
   /\ CartPage.shouldHaveItemCount 2 (JNum 0) empty_store
      = Ok (2, empty_store, [Get ".cart_item"; Should "not.exist" []]))
  /\ ((0 <= 1)%Z
      /\ CartPage.shouldHaveItemCount 2 (JNum 1) empty_store
         = Ok (2, empty_store, [Get ".cart_item"; Should "have.length" [JNum 1]])
      /\ passes (check 1 still (CartPage.shouldHaveItemCount 2 (JNum 1))
                   (seen cart_with_backpack)) = true).
Proof.
  split; [split; [lia|] | split; [lia | split]].
  - exact (proj1 (shouldHaveItemCount_branches_on_zero 2 0 empty_store ltac:(lia))).
  - exact (proj1 (shouldHaveItemCount_branches_on_zero 2 1 empty_store ltac:(lia))).
  - apply (proj2 (shouldHaveItemCount_branches_on_zero 2 1 empty_store ltac:(lia))).
    reflexivity.
Defined.

(** ** C3 *)

Lemma check_shouldNotShowCartBadge (this : Ref) (fuel : nat) (app : App) (es : ES) :
  passes (check (S fuel) app (InventoryPage.shouldNotShowCartBadge this) es) = true
  <-> query (page es) ".shopping_cart_badge" = [].
Proof.
  unfold check, run_body; cbn. unfold yield; cbn.
  destruct (query (page es) ".shopping_cart_badge"); cbn; split; intros H;
    first [discriminate | reflexivity].
Qed.

Lemma check_shouldShowCartBadge (this : Ref) (n : Z) (fuel : nat) (app : App) (es : ES) :
  passes (check (S fuel) app (InventoryPage.shouldShowCartBadge this (JNum n)) es) = true
  <-> exists b, In b (query (page es) ".shopping_cart_badge")
                /\ includes (el_text b) (number_text n) = true.
Proof.
  unfold check, run_body; cbn. unfold yield; cbn.
  destruct (query (page es) ".shopping_cart_badge") as [|e els]; cbn.
  - split; [discriminate | intros (b & [] & _)].
  - change (includes (el_text e) (number_text n)
            || existsb (fun e0 => includes (el_text e0) (number_text n)) els)
      with (existsb (fun e0 => includes (el_text e0) (number_text n)) (e :: els)).
    destruct (existsb _ (e :: els)) eqn:E; cbn.
    + apply existsb_exists in E. split; [intros _; exact E | reflexivity].
    + split; [discriminate|]. intros Hex.
      assert (existsb (fun e0 => includes (el_text e0) (number_text n)) (e :: els) = true)
        as E' by (apply existsb_exists; exact Hex).
      congruence.
Qed.

(** C3, as stated, fails where it says that [shouldShowCartBadge(n)]
    asserts the badge shows [n]: the assertion is ['contain'], a
    substring test, so a badge reading "12" passes
    [shouldShowCartBadge(2)] although no badge on the page reads "2". *)
Lemma badge_reading_12_passes_for_2 :
  ~ (forall (this : Ref) (n : Z) (fuel : nat) (app : App) (es : ES),
       (0 < n)%Z ->
       passes (check (S fuel) app (InventoryPage.shouldShowCartBadge this (JNum n)) es)
       = true ->
       exists b, In b (query (page es) ".shopping_cart_badge")
                 /\ el_text b = number_text n).
Proof.
  intros H.
  destruct (H 1 2%Z 0 still (seen (page_with_badge "12")) ltac:(lia) eq_refl)
    as (b & Hin & Htext).
  destruct Hin as [<-|[]]. discriminate Htext.
Qed.

(** C3 (amended). An empty cart is asserted by [shouldNotShowCartBadge],
    which asserts ['not.exist'] on the badge and passes exactly when the
    page has no badge element (a badge reading "0" fails it). For every
    count [n > 0], [shouldShowCartBadge(n)] asserts that the badge
    _contains_ the text JavaScript prints for [n] (its digits, up to
    [2^53]), which is never "0"; it passes exactly when some badge
    element has that text inside its own, not only when the badge reads
    [n]. The method does not treat zero apart: [shouldShowCartBadge(0)]
    asserts that the badge contains "0"; that no scenario asserts "0" is
    the doing of the specs. The one scenario that removes a product on
    the inventory page adds one product first (N = 1): it enqueues the
    add-to-cart click, the check that the badge contains "1", the remove
    click and the check that the badge does not exist, in this order. In
    no scenario of the shopping spec is the badge count checked after a
    removal, so a removal that leaves N-1 > 0 products is never checked. *)
Theorem cart_badge_absent_when_zero (this : Ref) (n : Z) (st : Store)
    (p : shopping_spec.Pages) :
  (0 < n)%Z ->
  InventoryPage.shouldNotShowCartBadge this st
  = Ok (this, st, [Get ".shopping_cart_badge"; Should "not.exist" []])
  /\ (forall fuel app es,
        passes (check (S fuel) app (InventoryPage.shouldNotShowCartBadge this) es) = true
        <-> query (page es) ".shopping_cart_badge" = [])
  /\ InventoryPage.shouldShowCartBadge this (JNum n) st
     = Ok (this, st,
           [Get ".shopping_cart_badge"; Should "contain" [JStr (number_text n)]])
  /\ number_text n <> "0"
  /\ ((n < 2 ^ 53)%Z -> number_text n = decimal n)
  /\ (forall fuel app es,
        passes (check (S fuel) app
                  (InventoryPage.shouldShowCartBadge this (JNum n)) es) = true
        <-> exists b, In b (query (page es) ".shopping_cart_badge")
                      /\ includes (el_text b) (number_text n) = true)
  /\ InventoryPage.shouldShowCartBadge this (JNum 0) st
     = Ok (this, st, [Get ".shopping_cart_badge"; Should "contain" [JStr "0"]])
  /\ emitted (shopping_spec.it_remove_from_inventory p) st
     = [Get ("[data-test=" +:+ quoted "add-to-cart-sauce-labs-backpack" +:+ "]");
        Click;
        Get ".shopping_cart_badge"; Should "contain" [JStr "1"];
        Get ("[data-test=" +:+ quoted "remove-sauce-labs-backpack" +:+ "]");
        Click;
        Get ".shopping_cart_badge"; Should "not.exist" []]
  /\ checks_badge_count (emitted (shopping_spec.it_remove_from_inventory p) st) = true
  /\ Forall (fun sc => checks_badge_count (after_removal (emitted (sc p) st)) = false)
       shopping_spec.scenarios
  /\ Forall (fun sc => forallb (fun op => negb (asserts_badge_zero op))
                         (emitted (sc p) st) = true)
       shopping_spec.scenarios.
Proof.
  intros Hn.
  split; [reflexivity|].
  split; [intros; apply check_shouldNotShowCartBadge|].
  split; [reflexivity|].
  split; [intros H%number_text_zero; lia|].
  split; [intros Hlt; apply number_text_small; lia|].
  split; [intros; apply check_shouldShowCartBadge|].
  split; [reflexivity|]. split; [reflexivity|]. split; [reflexivity|].
  split; repeat constructor.
Qed.

Lemma cart_badge_absent_when_zero_witness :
  (0 < 2)%Z
  /\ number_text 2 <> "0"
  /\ passes (check 1 still (InventoryPage.shouldShowCartBadge 1 (JNum 2))
               (seen (page_with_badge "12"))) = true
  /\ passes (check 1 still (InventoryPage.shouldNotShowCartBadge 1)
               (seen blank_page)) = true.
Proof.
  pose proof (cart_badge_absent_when_zero 1 2 empty_store
                {| shopping_spec.loginPage := 0;
                   shopping_spec.inventoryPage := 1;
                   shopping_spec.cartPage := 2 |} ltac:(lia))
    as (_ & Habsent & _ & Hdec & _ & Hshown & _).
  split; [lia|]. split; [exact Hdec|]. split.
  - apply Hshown. exists (leaf "12"). split; [left|]; reflexivity.
  - apply Habsent. reflexivity.
Defined.

(** ** C4 *)

(** C4. On a page with zero cart items (no [.cart_item], hence no item
    name inside one, and no badge), the methods disagree about what empty
    means. [CartPage.shouldHaveItemCount(0)] and
    [InventoryPage.shouldNotShowCartBadge] assert ['not.exist'] and pass;
    [CartPage.shouldNotContainProduct] queries the item names and chains
    ['not.contain'], so its query must find an element and the call fails
    with element-not-found on the very same page. *)
Theorem empty_cart_representations_disagree (this : Ref) (productName : JSValue)
    (fuel : nat) (app : App) (es : ES) :
  query (page es) ".cart_item" = [] ->
  query (page es) ".cart_item .inventory_item_name" = [] ->
  query (page es) ".shopping_cart_badge" = [] ->
  emitted (CartPage.shouldHaveItemCount this (JNum 0)) (store es)
  = [Get ".cart_item"; Should "not.exist" []]
  /\ emitted (InventoryPage.shouldNotShowCartBadge this) (store es)
     = [Get ".shopping_cart_badge"; Should "not.exist" []]
  /\ emitted (CartPage.shouldNotContainProduct this productName) (store es)
     = [Get ".cart_item .inventory_item_name"; Should "not.contain" [productName]]
  /\ passes (check (S fuel) app (CartPage.shouldHaveItemCount this (JNum 0)) es) = true
  /\ passes (check (S fuel) app (InventoryPage.shouldNotShowCartBadge this) es) = true
  /\ check (S fuel) app (CartPage.shouldNotContainProduct this productName) es
     = Failed (ElementNotFound ".cart_item .inventory_item_name") (with_subject es SNone).
Proof.
  intros Hitems Hnames Hbadge.
  split; [reflexivity|]. split; [reflexivity|]. split; [reflexivity|].
  split; [|split].
  - unfold check, run_body; cbn. unfold yield. rewrite Hitems. reflexivity.
  - unfold check, run_body; cbn. unfold yield. rewrite Hbadge. reflexivity.
  - unfold check, run_body; cbn. unfold yield. cbn. rewrite Hnames. reflexivity.
Qed.

Lemma empty_cart_representations_disagree_witness :
  query (page (seen blank_page)) ".cart_item" = []
  /\ query (page (seen blank_page)) ".cart_item .inventory_item_name" = []
  /\ query (page (seen blank_page)) ".shopping_cart_badge" = []
  /\ passes (check 1 still (CartPage.shouldHaveItemCount 2 (JNum 0))
               (seen blank_page)) = true
  /\ check 1 still (CartPage.shouldNotContainProduct 2 (JStr "Sauce Labs Backpack"))
       (seen blank_page)
     = Failed (ElementNotFound ".cart_item .inventory_item_name") (seen blank_page).
Proof.
  pose proof (empty_cart_representations_disagree 2 (JStr "Sauce Labs Backpack")
                0 still (seen blank_page) eq_refl eq_refl eq_refl)
    as (_ & _ & _ & Hcount & _ & Hnames).
  split; [reflexivity|]. split; [reflexivity|]. split; [reflexivity|].
  split; [exact Hcount | exact Hnames].
Defined.

(** ** C5 *)

(** C5, as stated, fails: [fillUsername] enqueues [.clear()] and then
    [.type(username)], two interactions, so not every action method
    performs exactly one. *)
Lemma fillUsername_is_two_interactions :
  ~ (forall (this : Ref) (m : Method) (st : Store),
       is_action m = true -> interactions (emitted (call this m) st) = 1).
Proof.
  intros H.
  specialize (H 0 (OnLogin (LP_fillUsername (JStr "standard_user"))) empty_store eq_refl).
  discriminate H.
Qed.

(** C5 (amended). Every action method performs exactly one interaction
    with the live page, except: [LoginPage.fillUsername(value)] and
    [LoginPage.fillPassword(value)], which query their field once and
    perform two interactions on it, [.clear()] then [.type(value)];
    [InventoryPage.logout], which clicks the menu button and then the
    logout link; and the composite [LoginPage.login], which performs the
    five interactions of its three steps. *)
Theorem action_method_interactions (this : Ref) (m : Method) (st : Store) :
  is_action m = true ->
  match m with
  | OnLogin (LP_fillUsername value) =>
      emitted (call this m) st = [Get "#user-name"; Clear; Type_ value]
      /\ interactions (emitted (call this m) st) = 2
  | OnLogin (LP_fillPassword value) =>
      emitted (call this m) st = [Get "#password"; Clear; Type_ value]
      /\ interactions (emitted (call this m) st) = 2
  | OnInventory IP_logout =>
      emitted (call this m) st
      = [Get "#react-burger-menu-btn"; Click; Get "#logout_sidebar_link"; Click]
  | OnLogin (LP_login _ _) => interactions (emitted (call this m) st) = 5
  | _ => interactions (emitted (call this m) st) = 1
  end.
Proof.
  destruct m as [[]|[]|[]]; intros H; try discriminate H;
    try split; reflexivity.
Qed.

Lemma action_method_interactions_witness :
  is_action (OnLogin (LP_fillPassword (JStr "secret_sauce"))) = true
  /\ emitted (call 0 (OnLogin (LP_fillPassword (JStr "secret_sauce")))) empty_store
     = [Get "#password"; Clear; Type_ (JStr "secret_sauce")]
  /\ is_action (OnCart CP_proceedToCheckout) = true
  /\ interactions (emitted (call 2 (OnCart CP_proceedToCheckout)) empty_store) = 1.
Proof.
  split; [reflexivity|]. split.
  - exact (proj1 (action_method_interactions 0
                    (OnLogin (LP_fillPassword (JStr "secret_sauce")))
                    empty_store eq_refl)).
  - split; [reflexivity|].
    exact (action_method_interactions 2 (OnCart CP_proceedToCheckout)
             empty_store eq_refl).
Defined.

(** ** C6 *)

(** C6. For every username and password, [login(username, password)]
    returns [this], leaves the store as it was, and enqueues exactly what
    [fillUsername(username)], then [fillPassword(password)], then
    [clickLogin()] enqueue, in that order and nothing else: eight
    commands in all. *)
Theorem login_is_fill_fill_click (this : Ref) (username password : JSValue)
    (st : Store) :
  LoginPage.login this username password st
  = Ok (this, st,
        emitted (LoginPage.fillUsername this username) st
        ++ emitted (LoginPage.fillPassword this password) st
        ++ emitted (LoginPage.clickLogin this) st)
  /\ emitted (LoginPage.login this username password) st
     = [Get "#user-name"; Clear; Type_ username;
        Get "#password"; Clear; Type_ password;
        Get "#login-button"; Click]
  /\ returned (LoginPage.login this username password) st = Some this.
Proof. repeat split. Qed.

(** ** C7 *)

(** C7. A Page Object instance is created without any own property, and
    no method call changes the store, so none ever gets one. Every
    element accessor enqueues a query of its selector each time it is
    used: what it enqueues does not depend on the store, using it twice
    enqueues the query twice, and the engine answers a query from the
    page as it is when the query runs. *)
Theorem page_objects_stateless_accessors_requery (this : Ref)
    (scope : gmap string Class) (name : string) (c : Class) (st : Store) :
  scope !! name = Some c ->
  (exists r st', new scope name st = Ok (r, st', [])
                 /\ heap st' !! r = Some {| po_class := c; po_fields := ∅ |})
  /\ (forall m, match call this m st with
                | Ok (_, st', _) | Throw _ st' _ => st' = st
                end)
  /\ (forall a, exists sel rest, access this a st = Ok (chainable, st, Get sel :: rest))
  /\ (forall a st2, emitted (access this a) st2 = emitted (access this a) st)
  /\ (forall a, emitted (access this a ;; access this a) st
                = emitted (access this a) st ++ emitted (access this a) st)
  /\ (forall fuel app sel es,
        run (S fuel) app [Get sel] es
        = if is_nil (query (page es) sel)
          then Failed (ElementNotFound sel) es
          else Passed (with_subject es (SElems (query (page es) sel)))).
Proof.
  intros Hc. repeat split.
  - unfold new. rewrite Hc. do 2 eexists. split; [reflexivity|].
    cbn. apply list_lookup_middle. reflexivity.
  - intros m. apply call_store.
  - intros a. apply access_requeries.
  - intros a st2. destruct a; reflexivity.
  - intros a. destruct a; reflexivity.
  - intros fuel app sel es. cbn. unfold yield. cbn.
    rewrite andb_true_r. destruct (is_nil (query (page es) sel)); reflexivity.
Qed.

Lemma page_objects_stateless_accessors_requery_witness :
  shopping_spec.imports !! "CartPage" = Some ClsCartPage
  /\ (exists r st', new shopping_spec.imports "CartPage" empty_store = Ok (r, st', [])
                    /\ heap st' !! r = Some {| po_class := ClsCartPage; po_fields := ∅ |})
  /\ emitted (access 0 CP_cartItems ;; access 0 CP_cartItems) empty_store
     = [Get ".cart_item"; Get ".cart_item"].
Proof.
  pose proof (page_objects_stateless_accessors_requery 0 shopping_spec.imports
                "CartPage" ClsCartPage empty_store eq_refl)
    as (Hnew & _ & _ & _ & Htwice & _).
  split; [reflexivity|]. split; [exact Hnew|].
  exact (Htwice CP_cartItems).
Defined.

(** ** The engine stops at the first failure *)

Lemma step_next (rec : list Op -> ES -> Outcome) (app : App) (op : Op)
    (n1 n2 : option Op) (es : ES) :
  waives_existence n1 = waives_existence n2 ->
  step rec app op n1 es = step rec app op n2 es.
Proof.
  intros H. destruct op; cbn; unfold within, yield; rewrite ?H; reflexivity.
Qed.

Lemma run_ops_failed_app (rec : list Op -> ES -> Outcome) (app : App)
    (ops1 ops2 : list Op) (es : ES) (f : Failure) (es' : ES) :
  waives_existence (head ops2) = false ->
  run_ops rec app ops1 es = Failed f es' ->
  run_ops rec app (ops1 ++ ops2) es = Failed f es'.
Proof.
  intros Hw. revert es. induction ops1 as [|op rest IH]; intros es; cbn.
  - discriminate.
  - assert (step rec app op (head (rest ++ ops2)) es = step rec app op (head rest) es) as ->.
    { apply step_next. destruct rest; cbn; [exact Hw | reflexivity]. }
    destruct (step rec app op (head rest) es); auto.
Qed.

Lemma do_step_starts_chain (s : Step) (st : Store) :
  match do_step s st with
  | Ok (_, st', ops) => st' = st /\ forall more, waives_existence (head (ops ++ more)) = false
  | Throw _ _ _ => True
  end.
Proof.
  destruct s as [obj m|name args]; unfold do_step, bind.
  - pose proof (call_starts_chain obj m st) as H.
    destruct (call obj m st) as [[[r st'] ops]|e]; [|exact I].
    destruct H as [-> H]. cbn. split; [reflexivity|].
    intros more. rewrite app_nil_r. apply H.
  - unfold cy.custom. destruct (lookup_command name (registry st)); cbn; auto.
Qed.

Lemma scenario_starts_chain (steps : list Step) (st : Store) :
  match scenario steps st with
  | Ok (_, st', ops) => st' = st /\ waives_existence (head ops) = false
  | Throw _ _ _ => True
  end.
Proof.
  induction steps as [|s rest IH]; cbn.
  - auto.
  - unfold bind. pose proof (do_step_starts_chain s st) as H.
    destruct (do_step s st) as [[[[] st1] ops1]|e]; [|exact I].
    destruct H as [-> H].
    destruct (scenario rest st) as [[[[] st2] ops2]|e]; [|exact I].
    destruct IH as [-> _]. auto.
Qed.

Lemma scenario_app (l1 l2 : list Step) (st st' : Store) (ops : list Op) :
  scenario (l1 ++ l2) st = Ok (tt, st', ops) ->
  exists ops1 ops2,
    scenario l1 st = Ok (tt, st, ops1) /\ scenario l2 st = Ok (tt, st, ops2)
    /\ ops = ops1 ++ ops2.
Proof.
  revert ops. induction l1 as [|s rest IH]; intros ops; cbn.
  - intros H. pose proof (scenario_starts_chain l2 st) as Hs. rewrite H in Hs.
    destruct Hs as [-> _]. exists [], ops. auto.
  - unfold bind. pose proof (do_step_starts_chain s st) as Hs.
    destruct (do_step s st) as [[[[] st1] ops1]|e]; [|discriminate].
    destruct Hs as [-> _].
    destruct (scenario (rest ++ l2) st) as [[[[] st2] ops2]|e] eqn:E; [|discriminate].
    intros [= <- <-].
    destruct (IH _ eq_refl) as (o1 & o2 & E1 & E2 & ->).
    rewrite E1. exists (ops1 ++ o1), o2. rewrite E2, app_assoc. auto.
Qed.

(** ** The registry *)

Lemma flat_plain (ops : list Op) : forallb flat ops = true -> forallb plain ops = true.
Proof.
  induction ops as [|op ops IH]; cbn; [auto|].
  intros [H1 H2]%andb_true_iff. rewrite IH by exact H2.
  destruct op; cbn in *; auto.
Qed.

Lemma each_item_flat (f : JSValue -> M unit) (l : list JSValue) (st : Store) :
  (forall x, exists ops, f x st = Ok (tt, st, ops) /\ forallb flat ops = true) ->
  exists ops, each_item f l st = Ok (tt, st, ops) /\ forallb flat ops = true.
Proof.
  intros Hf. induction l as [|x l (ops & E & Hops)]; cbn.
  - eexists; split; reflexivity.
  - destruct (Hf x) as (ops1 & E1 & H1). unfold bind. rewrite E1, E.
    eexists; split; [reflexivity|]. rewrite forallb_app, H1, Hops. reflexivity.
Qed.

Lemma imports_LoginPage : commands.imports !! "LoginPage" = Some ClsLoginPage.
Proof. reflexivity. Qed.

Lemma imports_InventoryPage : commands.imports !! "InventoryPage" = Some ClsInventoryPage.
Proof. reflexivity. Qed.

Lemma imports_CartPage : commands.imports !! "CartPage" = None.
Proof. reflexivity. Qed.

Lemma body_shape (fn : CommandFn) (args : list JSValue) (st : Store) :
  match commands.body fn args st with
  | Ok (_, st', ops) =>
      registry st' = registry st
      /\ match fn with
         | SetupCartWithProductsFn =>
             exists rest, ops = Custom cmd_loginAsStandardUser [] :: rest
                          /\ forallb flat rest = true
         | _ => forallb flat ops = true
         end
  | Throw _ st' _ => registry st' = registry st
  end.
Proof.
  destruct fn; unfold commands.body, commands.loginAsStandardUser, commands.loginAs,
    commands.addProductViaUI, commands.clearCart, commands.setupCartWithProducts,
    bind, new, cy.custom;
    rewrite ?imports_LoginPage, ?imports_InventoryPage, ?imports_CartPage; cbn; auto.
  destruct (lookup_command cmd_loginAsStandardUser (registry st)); [|reflexivity].
  cbn. rewrite ?imports_InventoryPage.
  destruct (arg args 0) as [| | | | |l]; cbn; auto.
  match goal with
  | |- context [each_item ?f ?l ?s] => destruct (each_item_flat f l s) as (ops & E & Hf)
  end.
  { intros x. eexists; split; reflexivity. }
  rewrite E. cbn. split; [reflexivity|]. eexists; split; [reflexivity|exact Hf].
Qed.

Lemma keeps_then (es : ES) (o : Outcome) (k : ES -> Outcome) :
  keeps_registry es o ->
  (forall es', registry (store es') = registry (store es) -> keeps_registry es' (k es')) ->
  keeps_registry es (match o with
                     | Passed es' => k es'
                     | Failed f es' => Failed f es'
                     | OutOfFuel => OutOfFuel
                     end).
Proof.
  destruct o as [es'|f es'|]; cbn; intros H Hk; auto.
  specialize (Hk es' H). destruct (k es'); cbn in *; congruence.
Qed.

Lemma step_flat_store (rec : list Op -> ES -> Outcome) (app : App) (op : Op)
    (next : option Op) (es : ES) :
  flat op = true -> keeps_store es (step rec app op next es).
Proof.
  destruct op; try discriminate; intros _; cbn; unfold within, yield, act_on_one, act;
    repeat match goal with
      | |- context [match ?x with _ => _ end] => destruct x; cbn
      end; reflexivity.
Qed.

Lemma step_flat (rec : list Op -> ES -> Outcome) (app : App) (op : Op)
    (next : option Op) (es : ES) :
  flat op = true -> keeps_registry es (step rec app op next es).
Proof.
  intros H. pose proof (step_flat_store rec app op next es H) as Hs.
  destruct (step rec app op next es); cbn in *; congruence.
Qed.

Lemma run_ops_flat (rec : list Op -> ES -> Outcome) (app : App) (ops : list Op) (es : ES) :
  forallb flat ops = true -> keeps_registry es (run_ops rec app ops es).
Proof.
  revert es. induction ops as [|op rest IH]; intros es; cbn.
  - reflexivity.
  - intros [Hop Hrest]%andb_true_iff.
    apply keeps_then; [apply step_flat, Hop|].
    intros es' _. apply IH, Hrest.
Qed.

Lemma flat_shallow (ops : list Op) : forallb flat ops = true -> forallb shallow ops = true.
Proof.
  induction ops as [|op ops IH]; cbn; [auto|].
  intros [H1 H2]%andb_true_iff. rewrite IH by exact H2.
  destruct op; cbn in *; auto; discriminate.
Qed.

Lemma body_shallow (fn : CommandFn) (args : list JSValue) (st : Store) :
  match commands.body fn args st with
  | Ok (_, st', ops) => registry st' = registry st /\ forallb shallow ops = true
  | Throw _ st' _ => registry st' = registry st
  end.
Proof.
  pose proof (body_shape fn args st) as H.
  destruct (commands.body fn args st) as [[[[] st'] ops]|e st' ops]; [|exact H].
  destruct H as [Hr H]. split; [exact Hr|].
  destruct fn; try (apply flat_shallow; exact H).
  destruct H as (rest & -> & Hf). cbn. apply flat_shallow, Hf.
Qed.

Lemma run_ops_shallow (k : nat) (app : App) (ops : list Op) (es : ES) :
  registry (store es) = registry loaded_store ->
  forallb shallow ops = true ->
  keeps_registry es (run_ops (run (S k) app) app ops es).
Proof.
  revert es. induction ops as [|op rest IH]; intros es Hreg; cbn [forallb run_ops].
  - reflexivity.
  - intros [Hop Hrest]%andb_true_iff.
    apply keeps_then.
    + destruct op; try (apply step_flat; exact Hop).
      cbn [step]. rewrite Hreg. cbn [shallow] in Hop.
      destruct (lookup_command name (registry loaded_store)) as [fn|]; [|reflexivity].
      pose proof (body_shape fn args (store es)) as Hb.
      unfold nested.
      destruct (commands.body fn args (store es)) as [[[[] st'] ops]|e st' ops];
        [|exact Hb].
      destruct Hb as [Hr Hb].
      assert (forallb flat ops = true) as Hf by (destruct fn; (exact Hb || discriminate Hop)).
      pose proof (run_ops_flat (run k app) app ops (with_store (with_subject es SNone) st') Hf)
        as Hk.
      cbn [run]. destruct (run_ops _ _ _ _); cbn in *; congruence.
    + intros es' Hes'. apply IH; [congruence | exact Hrest].
Qed.

Lemma run_ops_plain (k : nat) (app : App) (ops : list Op) (es : ES) :
  registry (store es) = registry loaded_store ->
  forallb plain ops = true ->
  keeps_registry es (run_ops (run (S (S k)) app) app ops es).
Proof.
  revert es. induction ops as [|op rest IH]; intros es Hreg; cbn [forallb run_ops].
  - reflexivity.
  - intros [Hop Hrest]%andb_true_iff.
    apply keeps_then.
    + destruct op; try discriminate Hop; try (apply step_flat; reflexivity).
      cbn [step].
      destruct (lookup_command name (registry (store es))) as [fn|]; [|reflexivity].
      pose proof (body_shallow fn args (store es)) as Hb.
      unfold nested.
      destruct (commands.body fn args (store es)) as [[[[] st'] ops]|e st' ops];
        [|exact Hb].
      destruct Hb as [Hr Hb].
      assert (registry (store (with_store (with_subject es SNone) st'))
              = registry loaded_store) as Hreg' by (unfold with_store; cbn [store]; congruence).
      pose proof (run_ops_shallow k app ops _ Hreg' Hb) as Hk.
      cbn [run]. destruct (run_ops _ _ _ _); cbn in *; congruence.
    + intros es' Hes'. apply IH; [congruence | exact Hrest].
Qed.

Lemma run_body_quiet (k : nat) (app : App) (body : M unit) (es : ES) :
  registry (store es) = registry loaded_store ->
  quiet body ->
  keeps_registry es (run_body (3 + k) app body es).
Proof.
  intros Hreg Hq. unfold run_body. specialize (Hq (store es)).
  destruct (body (store es)) as [[[[] st] ops]|e st ops]; [|exact (proj1 Hq)].
  destruct Hq as (Hr & _ & Hp).
  pose proof (run_ops_plain k app ops {| page := page es; subject := SNone; store := st |})
    as Hk.
  cbn [store] in Hk. specialize (Hk ltac:(congruence) Hp).
  cbn [run Nat.add]. destruct (run_ops _ _ _ _); cbn in *; congruence.
Qed.

Lemma run_bodies_quiet (k : nat) (app : App) (bodies : list (M unit)) (es : ES) :
  registry (store es) = registry loaded_store ->
  Forall quiet bodies ->
  keeps_registry es (run_bodies (3 + k) app bodies es).
Proof.
  intros Hreg Hq. revert es Hreg.
  induction Hq as [|b rest Hb _ IH]; intros es Hreg; cbn [run_bodies].
  - reflexivity.
  - apply keeps_then; [apply run_body_quiet; assumption|].
    intros es' Hes'. apply IH. congruence.
Qed.

Lemma settle_keeps_registry (es : ES) (o : Outcome) :
  keeps_registry es o -> keeps_registry es (settle o).
Proof.
  destruct o as [es'|f es'|]; cbn [settle]; auto.
  intros H. destruct (listeners (store es')) as [|l ls]; [exact H|].
  destruct (hand_over (l :: ls) f); exact H.
Qed.

Lemma run_test_quiet (k : nat) (app : App) (bodies : list (M unit)) (es : ES) :
  registry (store es) = registry loaded_store ->
  Forall quiet bodies ->
  keeps_registry es (run_test (3 + k) app bodies es).
Proof.
  intros Hreg Hq. apply settle_keeps_registry, run_bodies_quiet; assumption.
Qed.

Lemma do_step_quiet (s : Step) (st : Store) :
  match do_step s st with
  | Ok (_, st', ops) | Throw _ st' ops => st' = st /\ forallb plain ops = true
  end.
Proof.
  destruct s as [obj m|name args]; unfold do_step, bind.
  - pose proof (call_store obj m st) as H1.
    pose proof (call_flat obj m st) as H2.
    destruct (call obj m st) as [[[r st'] ops]|e st' ops]; cbn.
    + rewrite app_nil_r. split; [exact H1 | apply flat_plain, H2].
    + split; [exact H1 | apply flat_plain, H2].
  - unfold cy.custom. destruct (lookup_command name (registry st)); cbn; auto.
Qed.

Lemma scenario_quiet (steps : list Step) : quiet (scenario steps).
Proof.
  intros st. induction steps as [|s rest IH]; cbn.
  - auto.
  - unfold bind. pose proof (do_step_quiet s st) as Hs.
    destruct (do_step s st) as [[[[] st1] ops1]|e st1 ops1].
    + destruct Hs as [-> H1].
      destruct (scenario rest st) as [[[[] st2] ops2]|e st2 ops2];
        destruct IH as (IH1 & IH2 & IH3); (split; [exact IH1|]); (split; [exact IH2|]);
        rewrite forallb_app, H1, IH3; reflexivity.
    + destruct Hs as [-> H1]. auto.
Qed.

Lemma load_registers (st : Store) :
  commands.load st
  = Ok (tt,
        {| heap := heap st;
           registry := [(cmd_setupCartWithProducts, SetupCartWithProductsFn);
                        (cmd_clearCart, ClearCartFn);
                        (cmd_addProductViaUI, AddProductViaUIFn);
                        (cmd_loginAs, LoginAsFn);
                        (cmd_loginAsStandardUser, LoginAsStandardUserFn)]
                       ++ registry st;
           listeners := listeners st |},
        []).
Proof. reflexivity. Qed.

Lemma login_spec_quiet (p : login_spec.Pages) :
  Forall (fun sc => quiet (sc p)) login_spec.scenarios /\ quiet (login_spec.beforeEach p).
Proof.
  split; [repeat constructor|]; intros st; cbn; auto.
Qed.

Lemma shopping_spec_quiet (p : shopping_spec.Pages) :
  Forall (fun sc => quiet (sc p)) shopping_spec.scenarios
  /\ quiet (shopping_spec.beforeEach p).
Proof.
  split; [repeat constructor; intros st; cbn; auto|].
  intros st. unfold shopping_spec.beforeEach, bind, cy.custom.
  destruct (lookup_command cmd_loginAsStandardUser (registry st)); cbn; auto.
Qed.

(** C9. Evaluating [commands.js] adds five registrations, one for each
    of the five names, to the registry it finds, and nothing else; from
    the empty registry the result holds each name exactly once. With
    that registry in place and enough fuel, every scenario made of Page
    Object method calls and Custom Command calls, and every scenario of
    the two Test Specs with its [beforeEach] hook, runs to a pass or a
    failure with the registry unchanged; the [describe] blocks do not
    change it either. The hook of the shopping spec needs the
    registration to have happened: on the empty registry it throws. *)
Theorem registry_written_once (k : nat) (app : App) (es : ES) (steps : list Step) :
  registry (store es) = registry loaded_store ->
  (forall st,
     commands.load st
     = Ok (tt,
           {| heap := heap st;
              registry := [(cmd_setupCartWithProducts, SetupCartWithProductsFn);
                           (cmd_clearCart, ClearCartFn);
                           (cmd_addProductViaUI, AddProductViaUIFn);
                           (cmd_loginAs, LoginAsFn);
                           (cmd_loginAsStandardUser, LoginAsStandardUserFn)]
                          ++ registry st;
              listeners := listeners st |},
           []))
  /\ map (fun r => command_text (fst r)) (registry loaded_store)
     = ["setupCartWithProducts"; "clearCart"; "addProductViaUI"; "loginAs";
        "loginAsStandardUser"]
  /\ NoDup (map (fun r => command_text (fst r)) (registry loaded_store))
  /\ keeps_registry es (run_body (3 + k) app (scenario steps) es)
  /\ (forall p sc, In sc login_spec.scenarios ->
        keeps_registry es (run_test (3 + k) app [login_spec.beforeEach p; sc p] es))
  /\ (forall p sc, In sc shopping_spec.scenarios ->
        keeps_registry es (run_test (3 + k) app [shopping_spec.beforeEach p; sc p] es))
  /\ (forall st,
        match login_spec.describe st, shopping_spec.describe st with
        | Ok (_, st1, _), Ok (_, st2, _) =>
            registry st1 = registry st /\ registry st2 = registry st
        | _, _ => False
        end)
  /\ (forall p,
        shopping_spec.beforeEach p empty_store
        = Throw (TypeError "cy.loginAsStandardUser is not a function") empty_store []).
Proof.
  intros Hreg.
  split; [exact load_registers|]. split; [reflexivity|].
  split; [apply (bool_decide_unpack _); reflexivity|].
  split; [apply run_body_quiet; [exact Hreg | apply scenario_quiet]|].
  split; [|split; [|split]].
  - intros p sc Hin. apply run_test_quiet; [exact Hreg|].
    destruct (login_spec_quiet p) as [Hall Hhook].
    rewrite Forall_forall in Hall.
    constructor; [exact Hhook|]. constructor; [|constructor].
    apply Hall, list_elem_of_In, Hin.
  - intros p sc Hin. apply run_test_quiet; [exact Hreg|].
    destruct (shopping_spec_quiet p) as [Hall Hhook].
    rewrite Forall_forall in Hall.
    constructor; [exact Hhook|]. constructor; [|constructor].
    apply Hall, list_elem_of_In, Hin.
  - intros st. split; reflexivity.
  - intros p. reflexivity.
Qed.

Lemma registry_written_once_witness :
  registry (store (seen cart_with_backpack)) = registry loaded_store
  /\ keeps_registry (seen cart_with_backpack)
       (run_body 3 still
          (scenario [CommandStep cmd_setupCartWithProducts
                       [JArr [JStr "sauce-labs-backpack"]];
                     CallStep 1 (OnInventory (IP_shouldShowCartBadge (JNum 1)))])
          (seen cart_with_backpack)).
Proof.
  split; [reflexivity|].
  exact (proj1 (proj2 (proj2 (proj2
           (registry_written_once 0 still (seen cart_with_backpack)
              [CommandStep cmd_setupCartWithProducts [JArr [JStr "sauce-labs-backpack"]];
               CallStep 1 (OnInventory (IP_shouldShowCartBadge (JNum 1)))]
              eq_refl))))).
Defined.

(** ** C8 *)

Lemma body_keeps_listeners (fn : CommandFn) (args : list JSValue) (st : Store) :
  match commands.body fn args st with
  | Ok (_, st', ops) | Throw _ st' ops =>
      listeners st' = listeners st /\ forallb plain ops = true
  end.
Proof.
  destruct fn; unfold commands.body, commands.loginAsStandardUser, commands.loginAs,
    commands.addProductViaUI, commands.clearCart, commands.setupCartWithProducts,
    bind, new, cy.custom;
    rewrite ?imports_LoginPage, ?imports_InventoryPage, ?imports_CartPage; cbn; auto.
  destruct (lookup_command cmd_loginAsStandardUser (registry st)); [|cbn; auto].
  cbn. rewrite ?imports_InventoryPage.
  destruct (arg args 0) as [| | | | |l]; cbn; auto.
  match goal with
  | |- context [each_item ?f ?l ?s] => destruct (each_item_flat f l s) as (ops & E & Hf)
  end.
  { intros x. eexists; split; reflexivity. }
  rewrite E. cbn. split; [reflexivity | apply flat_plain, Hf].
Qed.

Lemma keeps_listeners_then (es : ES) (o : Outcome) (k : ES -> Outcome) :
  keeps_listeners es o ->
  (forall es', listeners (store es') = listeners (store es) -> keeps_listeners es' (k es')) ->
  keeps_listeners es (match o with
                      | Passed es' => k es'
                      | Failed f es' => Failed f es'
                      | OutOfFuel => OutOfFuel
                      end).
Proof.
  destruct o as [es'|f es'|]; cbn; intros H Hk; auto.
  specialize (Hk es' H). destruct (k es'); cbn in *; congruence.
Qed.

Lemma step_flat_listeners (rec : list Op -> ES -> Outcome) (app : App) (op : Op)
    (next : option Op) (es : ES) :
  flat op = true -> keeps_listeners es (step rec app op next es).
Proof.
  intros H. pose proof (step_flat_store rec app op next es H) as Hs.
  destruct (step rec app op next es); cbn in *; [congruence | congruence | exact I].
Qed.

Lemma run_keeps_listeners (fuel : nat) (app : App) (ops : list Op) (es : ES) :
  forallb plain ops = true -> keeps_listeners es (run fuel app ops es).
Proof.
  revert ops es. induction fuel as [|fuel IHfuel]; intros ops es; [intros _; exact I|].
  cbn [run]. revert es. induction ops as [|op rest IH]; intros es; cbn [forallb run_ops].
  - reflexivity.
  - intros [Hop Hrest]%andb_true_iff.
    apply keeps_listeners_then; [|intros es' _; apply IH, Hrest].
    destruct op; try discriminate Hop; try (apply step_flat_listeners; reflexivity).
    cbn [step].
    destruct (lookup_command name (registry (store es))) as [fn|]; [|reflexivity].
    pose proof (body_keeps_listeners fn args (store es)) as Hb.
    unfold nested.
    destruct (commands.body fn args (store es)) as [[[[] st'] ops]|e st' ops];
      [|exact (proj1 Hb)].
    destruct Hb as [Hl Hp].
    pose proof (IHfuel ops (with_store (with_subject es SNone) st') Hp) as Hk.
    destruct (run fuel app ops _); cbn in *; congruence.
Qed.

Lemma run_body_keeps_listeners (fuel : nat) (app : App) (body : M unit) (es : ES) :
  quiet body -> keeps_listeners es (run_body fuel app body es).
Proof.
  intros Hq. unfold run_body. specialize (Hq (store es)).
  destruct (body (store es)) as [[[[] st] ops]|e st ops]; [|exact (proj1 (proj2 Hq))].
  destruct Hq as (_ & Hl & Hp).
  pose proof (run_keeps_listeners fuel app ops
                {| page := page es; subject := SNone; store := st |} Hp) as Hk.
  destruct (run fuel app ops _); cbn in *; congruence.
Qed.

Lemma run_bodies_keeps_listeners (fuel : nat) (app : App) (bodies : list (M unit))
    (es : ES) :
  Forall quiet bodies -> keeps_listeners es (run_bodies fuel app bodies es).
Proof.
  intros Hq. revert es.
  induction Hq as [|b rest Hb _ IH]; intros es; cbn [run_bodies].
  - reflexivity.
  - apply keeps_listeners_then; [apply run_body_keeps_listeners, Hb|].
    intros es' _. apply IH.
Qed.

(** With nobody listening at the start and bodies that register no
    listener, the verdict is the outcome of the run as it is. *)
Lemma run_test_unheard (fuel : nat) (app : App) (bodies : list (M unit)) (es : ES) :
  listeners (store es) = [] ->
  Forall quiet bodies ->
  run_test fuel app bodies es = run_bodies fuel app bodies es.
Proof.
  intros Hnone Hq. unfold run_test.
  pose proof (run_bodies_keeps_listeners fuel app bodies es Hq) as Hk.
  destruct (run_bodies fuel app bodies es) as [es'|f es'|]; cbn in *; try reflexivity.
  rewrite Hk, Hnone. reflexivity.
Qed.

Lemma run_failed_app (fuel : nat) (app : App) (ops1 ops2 : list Op) (es : ES)
    (f : Failure) (es' : ES) :
  waives_existence (head ops2) = false ->
  run fuel app ops1 es = Failed f es' ->
  run fuel app (ops1 ++ ops2) es = Failed f es'.
Proof.
  intros Hw H. destruct fuel as [|fuel]; [discriminate|].
  cbn in *. apply run_ops_failed_app; assumption.
Qed.

(** The engine does hand failures to test code that asks for them: a
    body that registers a listener before it clicks a button that is not
    there passes, where the same click alone fails. Nothing in the layer
    below asks. *)
Lemma a_listener_would_swallow_the_failure :
  run_test 1 still [scenario [CallStep 0 (OnLogin LP_clickLogin)]] (seen blank_page)
  = Failed (ElementNotFound "#login-button") (seen blank_page)
  /\ passes (run_test 1 still
               [cy.on_fail swallow ;; scenario [CallStep 0 (OnLogin LP_clickLogin)]]
               (seen blank_page)) = true.
Proof. split; reflexivity. Qed.

(** C8. The one way test code can catch, replace or pass over a failure
    of the engine is a listener for the ['fail'] event, and nothing in
    this layer registers one: a Page Object method leaves the store as it
    is and enqueues plain commands only, a Custom Command body leaves the
    listeners as they are and enqueues no callback, and neither do the
    hooks and scenarios of the two Test Specs. So, in a test that starts
    with nobody listening, for every scenario made of Page Object method
    calls and Custom Command calls: if the scenario up to and including
    some step fails with failure [f] in engine state [es'], the test of
    the whole scenario fails with the same [f] in the same [es'],
    whatever steps follow; they are not run, the failure is not replaced
    and nothing is tried again. For the scenarios of the Test Specs the
    verdict is the outcome of the engine as it is. An exception thrown
    by a hook or test body fails the test with that exception, and once
    a body has failed the bodies after it are not run. *)
Theorem engine_failure_is_fatal (fuel : nat) (app : App) (pre post : list Step)
    (s : Step) (es : ES) (f : Failure) (es' : ES) :
  listeners (store es) = [] ->
  (exists st' ops, scenario (pre ++ s :: post) (store es) = Ok (tt, st', ops)) ->
  run_body fuel app (scenario (pre ++ [s])) es = Failed f es' ->
  run_test fuel app [scenario (pre ++ s :: post)] es = Failed f es'
  /\ (forall this m st,
        match call this m st with
        | Ok (_, st', ops) | Throw _ st' ops => st' = st /\ forallb flat ops = true
        end)
  /\ (forall fn args st,
        match commands.body fn args st with
        | Ok (_, st', ops) | Throw _ st' ops =>
            listeners st' = listeners st /\ forallb plain ops = true
        end)
  /\ (forall p sc, In sc login_spec.scenarios ->
        run_test fuel app [login_spec.beforeEach p; sc p] es
        = run_bodies fuel app [login_spec.beforeEach p; sc p] es)
  /\ (forall p sc, In sc shopping_spec.scenarios ->
        run_test fuel app [shopping_spec.beforeEach p; sc p] es
        = run_bodies fuel app [shopping_spec.beforeEach p; sc p] es)
  /\ (forall body e st' ops rest,
        body (store es) = Throw e st' ops ->
        listeners st' = [] ->
        run_test fuel app (body :: rest) es
        = Failed (UncaughtException e) (with_store es st'))
  /\ (forall body rest,
        quiet body ->
        run_body fuel app body es = Failed f es' ->
        run_test fuel app (body :: rest) es = Failed f es').
Proof.
  intros Hnone (st' & ops & Hall) Hfail.
  split; [|split; [|split; [|split; [|split; [|split]]]]].
  - rewrite run_test_unheard by (try exact Hnone; repeat constructor; apply scenario_quiet).
    cbn [run_bodies].
    change (pre ++ s :: post) with (pre ++ [s] ++ post) in *.
    rewrite app_assoc in *.
    destruct (scenario_app _ _ _ _ _ Hall) as (ops1 & ops2 & E1 & E2 & ->).
    unfold run_body in *. rewrite Hall. rewrite E1 in Hfail.
    pose proof (scenario_starts_chain (pre ++ [s] ++ post) (store es)) as Hst.
    rewrite app_assoc, Hall in Hst. destruct Hst as [-> _].
    pose proof (scenario_starts_chain post (store es)) as Hs. rewrite E2 in Hs.
    rewrite (run_failed_app _ _ _ _ _ _ _ (proj2 Hs) Hfail). reflexivity.
  - intros this m st. pose proof (call_flat this m st) as Hf.
    pose proof (call_store this m st) as Hs.
    destruct (call this m st) as [[[r st1] ops1]|e st1 ops1]; auto.
  - apply body_keeps_listeners.
  - intros p sc Hin. apply run_test_unheard; [exact Hnone|].
    destruct (login_spec_quiet p) as [Hall' Hhook].
    rewrite Forall_forall in Hall'.
    constructor; [exact Hhook|]. constructor; [|constructor].
    apply Hall', list_elem_of_In, Hin.
  - intros p sc Hin. apply run_test_unheard; [exact Hnone|].
    destruct (shopping_spec_quiet p) as [Hall' Hhook].
    rewrite Forall_forall in Hall'.
    constructor; [exact Hhook|]. constructor; [|constructor].
    apply Hall', list_elem_of_In, Hin.
  - intros body e st1 ops' rest Hb Hst1. unfold run_test. cbn [run_bodies].
    unfold run_body. rewrite Hb. cbn. rewrite Hst1. reflexivity.
  - intros body rest Hq Hb. unfold run_test. cbn [run_bodies]. rewrite Hb. cbn.
    pose proof (run_body_keeps_listeners fuel app body es Hq) as Hk.
    rewrite Hb in Hk. cbn in Hk. rewrite Hk, Hnone. reflexivity.
Qed.

Lemma engine_failure_is_fatal_witness :
  listeners (store (seen blank_page)) = []
  /\ (exists st' ops,
        scenario ([CallStep 0 (OnLogin LP_visit)]
                  ++ CallStep 0 (OnLogin LP_clickLogin)
                     :: [CallStep 0 (OnLogin (LP_shouldShowError JUndefined))])
          (store (seen blank_page)) = Ok (tt, st', ops))
  /\ run_body 1 still
       (scenario ([CallStep 0 (OnLogin LP_visit)] ++ [CallStep 0 (OnLogin LP_clickLogin)]))
       (seen blank_page)
     = Failed (ElementNotFound "#login-button") (seen blank_page)
  /\ run_test 1 still
       [scenario ([CallStep 0 (OnLogin LP_visit)]
                  ++ CallStep 0 (OnLogin LP_clickLogin)
                     :: [CallStep 0 (OnLogin (LP_shouldShowError JUndefined))])]
       (seen blank_page)
     = Failed (ElementNotFound "#login-button") (seen blank_page).
Proof.
  assert (exists st' ops,
            scenario ([CallStep 0 (OnLogin LP_visit)]
                      ++ CallStep 0 (OnLogin LP_clickLogin)
                         :: [CallStep 0 (OnLogin (LP_shouldShowError JUndefined))])
              (store (seen blank_page)) = Ok (tt, st', ops)) as Hok
    by (do 2 eexists; reflexivity).
  split; [reflexivity|]. split; [exact Hok|]. split; [reflexivity|].
  exact (proj1 (engine_failure_is_fatal 1 still
                  [CallStep 0 (OnLogin LP_visit)]
                  [CallStep 0 (OnLogin (LP_shouldShowError JUndefined))]
                  (CallStep 0 (OnLogin LP_clickLogin))
                  (seen blank_page)
                  (ElementNotFound "#login-button") (seen blank_page)
                  eq_refl Hok eq_refl)).
Defined.

(** ** C10 *)

(** The body of [clearCart] throws before it enqueues anything, whatever
    the arguments and the store. *)
Lemma clearCart_throws (args : list JSValue) (st : Store) :
  commands.clearCart args st
  = Throw (ReferenceError "CartPage is not defined")
      {| heap := heap st ++ [{| po_class := ClsInventoryPage; po_fields := ∅ |}];
         registry := registry st;
         listeners := listeners st |}
      [].
Proof. reflexivity. Qed.

(** C10. When the cart page holds at least one cart item and [clearCart]
    is the registered command, running [cy.clearCart()] fails with an
    uncaught ReferenceError: [commands.js] imports [LoginPage] and
    [InventoryPage] only, so [CartPage] is unbound where the body
    evaluates [new CartPage()]. By then the body has created its
    [InventoryPage] and enqueued nothing. *)
Theorem clearCart_raises_ReferenceError (fuel : nat) (app : App) (es : ES)
    (args : list JSValue) :
  0 < length (query (page es) ".cart_item") ->
  lookup_command cmd_clearCart (registry (store es)) = Some ClearCartFn ->
  commands.imports !! "CartPage" = None
  /\ commands.clearCart args (store es)
     = Throw (ReferenceError "CartPage is not defined")
         {| heap := heap (store es)
                    ++ [{| po_class := ClsInventoryPage; po_fields := ∅ |}];
            registry := registry (store es);
            listeners := listeners (store es) |}
         []
  /\ run (S fuel) app [Custom cmd_clearCart args] es
     = Failed (UncaughtException (ReferenceError "CartPage is not defined"))
         {| page := page es;
            subject := SNone;
            store := {| heap := heap (store es)
                               ++ [{| po_class := ClsInventoryPage; po_fields := ∅ |}];
                        registry := registry (store es);
                        listeners := listeners (store es) |} |}.
Proof.
  intros _ Hreg.
  split; [apply imports_CartPage|]. split; [apply clearCart_throws|].
  cbn. rewrite Hreg. reflexivity.
Qed.

Lemma clearCart_raises_ReferenceError_witness :
  0 < length (query (page (seen cart_with_backpack)) ".cart_item")
  /\ lookup_command cmd_clearCart (registry (store (seen cart_with_backpack)))
     = Some ClearCartFn
  /\ run 1 still [Custom cmd_clearCart []] (seen cart_with_backpack)
     = Failed (UncaughtException (ReferenceError "CartPage is not defined"))
         {| page := cart_with_backpack;
            subject := SNone;
            store := {| heap := [{| po_class := ClsInventoryPage; po_fields := ∅ |}];
                        registry := registry loaded_store;
                        listeners := [] |} |}.
Proof.
  assert (0 < length (query (page (seen cart_with_backpack)) ".cart_item")) as Hitem
    by (cbn; lia).
  split; [exact Hitem|]. split; [reflexivity|].
  exact (proj2 (proj2 (clearCart_raises_ReferenceError 0 still
                         (seen cart_with_backpack) [] Hitem eq_refl))).
Defined.

(** * Further properties of the code *)

(** ** Substrings *)





Lemma append_length (a b : string) :
  String.length (a +:+ b) = String.length a + String.length b.
Proof.
  unfold String.app. induction a as [|x a IH]; cbn; [reflexivity | f_equal; exact IH].
Qed.

Lemma append_inj_l (a b c : string) : a +:+ b = a +:+ c -> b = c.
Proof. unfold String.app. induction a as [|x a IH]; cbn; [auto | intros [= H]; auto]. Qed.

Lemma append_inj_r (a b c : string) : a +:+ c = b +:+ c -> a = b.
Proof.
  revert b. induction a as [|x a IH]; intros b H.
  - destruct b as [|y b]; [reflexivity|].
    apply (f_equal String.length) in H. rewrite !append_length in H. cbn in H. lia.
  - destruct b as [|y b].
    + apply (f_equal String.length) in H. rewrite !append_length in H. cbn in H. lia.
    + unfold String.app in *. cbn in H. injection H as -> H. f_equal. apply IH, H.
Qed.

Lemma existsb_In {A} (f : A -> bool) (l : list A) :
  existsb f l = true <-> exists x, In x l /\ f x = true.
Proof. apply existsb_exists. Qed.

Lemma check_shouldShowError (this : Ref) (message : JSValue) (fuel : nat)
    (app : App) (es : ES) :
  passes (check (S fuel) app (LoginPage.shouldShowError this message) es)
  = existsb el_visible (query (page es) ("[data-test=" +:+ quoted "error" +:+ "]"))
    && (negb (truthy message)
        || existsb (fun e => includes (el_text e) (ToString message))
             (query (page es) ("[data-test=" +:+ quoted "error" +:+ "]"))).
Proof.
  unfold check, run_body, LoginPage.shouldShowError.
  destruct (truthy message); cbn; unfold yield; cbn;
    destruct (query (page es) ("[data-test=" +:+ quoted "error" +:+ "]"))
      as [|e els] eqn:Eq; cbn; try reflexivity.
  - destruct (el_visible e || existsb el_visible els); cbn; [|reflexivity].
    rewrite Eq. cbn.
    destruct (includes (el_text e) (ToString message)
              || existsb (fun e0 => includes (el_text e0) (ToString message)) els);
      reflexivity.
  - destruct (el_visible e || existsb el_visible els); reflexivity.
Qed.

(** X1. [shouldShowError(message)] always asserts that the error element
    is visible and asserts its text only when [message] is truthy: an
    omitted message, [null], [false], [0] and the empty string all skip
    the text check. The error element is queried again for the second
    assertion. The call passes exactly when some error element is
    visible and, for a truthy message, some error element contains it. *)
Theorem shouldShowError_message_is_optional (this : Ref) (message : JSValue)
    (st : Store) :
  LoginPage.shouldShowError this message st
  = Ok (this, st,
        [Get ("[data-test=" +:+ quoted "error" +:+ "]"); Should "be.visible" []]
        ++ (if truthy message
            then [Get ("[data-test=" +:+ quoted "error" +:+ "]");
                  Should "contain" [message]]
            else []))
  /\ LoginPage.shouldShowError this (JStr EmptyString) st
     = LoginPage.shouldShowError this JUndefined st
  /\ forall fuel app es,
       passes (check (S fuel) app (LoginPage.shouldShowError this message) es) = true
       <-> (exists e, In e (query (page es) ("[data-test=" +:+ quoted "error" +:+ "]"))
                      /\ el_visible e = true)
           /\ (truthy message = true ->
               exists e, In e (query (page es) ("[data-test=" +:+ quoted "error" +:+ "]"))
                         /\ includes (el_text e) (ToString message) = true).
Proof.
  split; [|split; [reflexivity|]].
  - unfold LoginPage.shouldShowError. destruct (truthy message); reflexivity.
  - intros fuel app es. rewrite check_shouldShowError.
    rewrite andb_true_iff, orb_true_iff, negb_true_iff, !existsb_In.
    split; intros [Hv Hm]; (split; [exact Hv|]).
    + intros Ht. destruct Hm as [Hm|Hm]; [congruence | exact Hm].
    + destruct (truthy message); [right; apply Hm; reflexivity | left; reflexivity].
Qed.

(** X2. The two URL assertions of [LoginPage] look at the URL by
    substring: [shouldRedirectToInventory] passes exactly when the URL
    contains "/inventory" and queries no element;
    [shouldBeOnLoginPage] passes exactly when the URL contains
    "saucedemo.com" and some login button is visible. *)
Theorem url_assertions_read_the_url (this : Ref) (fuel : nat) (app : App) (es : ES) :
  (passes (check (S fuel) app (LoginPage.shouldRedirectToInventory this) es) = true
   <-> includes (page_url (page es)) "/inventory" = true)
  /\ forallb (fun op => negb (match op with Get _ => true | _ => false end))
       (emitted (LoginPage.shouldRedirectToInventory this) (store es)) = true
  /\ (passes (check (S fuel) app (LoginPage.shouldBeOnLoginPage this) es) = true
      <-> includes (page_url (page es)) "saucedemo.com" = true
          /\ exists b, In b (query (page es) "#login-button") /\ el_visible b = true).
Proof.
  split; [|split; [reflexivity|]]; unfold check, run_body; cbn; unfold yield; cbn.
  - destruct (includes (page_url (page es)) "/inventory"); cbn;
      split; congruence.
  - destruct (includes (page_url (page es)) "saucedemo.com"); cbn.
    + destruct (query (page es) "#login-button") as [|e els] eqn:Eq; cbn.
      * split; [discriminate | intros (_ & b & [] & _)].
      * change (el_visible e || existsb el_visible els)
          with (existsb el_visible (e :: els)).
        destruct (existsb el_visible (e :: els)) eqn:Ev; cbn.
        -- split; [intros _|reflexivity]. split; [reflexivity|].
           exact (proj1 (existsb_In el_visible (e :: els)) Ev).
        -- split; [discriminate|]. intros (_ & Hb).
           apply (proj2 (existsb_In el_visible (e :: els))) in Hb. congruence.
    + split; [discriminate | intros (H & _); discriminate H].
Qed.

(** X3. The templated selectors of [InventoryPage] tell products apart
    by the string form of the identifier and by nothing else: two
    identifiers give the same add-to-cart (remove, title) selector exactly
    when their string forms are equal, so the number [n] and the string
    JavaScript prints for it select the same button, which up to [2^53]
    is the string of its digits; and an add-to-cart selector is never a
    remove selector. *)
Theorem templated_selectors_distinguish_products (this : Ref) (p q : JSValue)
    (st : Store) :
  (emitted (InventoryPage.getAddToCartButton this p) st
   = emitted (InventoryPage.getAddToCartButton this q) st
   <-> ToString p = ToString q)
  /\ (emitted (InventoryPage.getRemoveButton this p) st
      = emitted (InventoryPage.getRemoveButton this q) st
      <-> ToString p = ToString q)
  /\ (emitted (InventoryPage.getProductTitle this p) st
      = emitted (InventoryPage.getProductTitle this q) st
      <-> ToString p = ToString q)
  /\ emitted (InventoryPage.getAddToCartButton this p) st
     <> emitted (InventoryPage.getRemoveButton this q) st
  /\ (forall n, emitted (InventoryPage.getAddToCartButton this (JNum n)) st
                = emitted (InventoryPage.getAddToCartButton this
                             (JStr (number_text n))) st)
  /\ (forall n, (Z.abs n < 2 ^ 53)%Z ->
                emitted (InventoryPage.getAddToCartButton this (JNum n)) st
                = emitted (InventoryPage.getAddToCartButton this (JStr (decimal n))) st)
  /\ emitted (InventoryPage.getAddToCartButton this (JNum (2 ^ 64))) st
     = emitted (InventoryPage.getAddToCartButton this (JStr "18446744073709552000")) st.
Proof.
  cbn. repeat split.
  - intros [= H]. repeat (apply append_inj_l in H). apply append_inj_r in H. exact H.
  - intros ->. reflexivity.
  - intros [= H]. repeat (apply append_inj_l in H). apply append_inj_r in H. exact H.
  - intros ->. reflexivity.
  - intros [= H]. repeat (apply append_inj_l in H). apply append_inj_r in H. exact H.
  - intros ->. reflexivity.
  - intros H. injection H as H. repeat (apply append_inj_l in H).
    unfold String.app in H. cbn in H. discriminate H.
  - intros n Hn. rewrite number_text_small by exact Hn. reflexivity.
Qed.

Lemma call_ok_shape (this : Ref) (m : Method) (st : Store) :
  nullish_count m = false ->
  call this m st = Ok (this, st, emitted (call this m) st).
Proof.
  method_cases m; intros H; try discriminate H; reflexivity.
Qed.

Lemma call_nullish_throws (this : Ref) (count : JSValue) (st : Store) :
  count = JUndefined \/ count = JNull ->
  call this (OnInventory (IP_shouldShowCartBadge count)) st
  = Throw (TypeError ("Cannot read properties of " +:+ ToString count
                      +:+ " (reading 'toString')"))
      st [Get ".shopping_cart_badge"].
Proof. intros [->| ->]; reflexivity. Qed.

Lemma call_chain_ops (this : Ref) (ms : list Method) (st : Store) :
  Forall (fun m => nullish_count m = false) ms ->
  call_chain this ms st
  = Ok (repeat this (length ms), this, st,
        concat (map (fun m => emitted (call this m) st) ms)).
Proof.
  induction 1 as [|m ms Hm _ IH]; [reflexivity|].
  cbn [call_chain map concat length repeat]. unfold bind.
  rewrite (call_ok_shape this m st Hm), IH. cbn. rewrite app_nil_r. reflexivity.
Qed.

Lemma call_chain_throws (this : Ref) (ms : list Method) (count : JSValue)
    (more : list Method) (st : Store) :
  Forall (fun m => nullish_count m = false) ms ->
  count = JUndefined \/ count = JNull ->
  call_chain this (ms ++ OnInventory (IP_shouldShowCartBadge count) :: more) st
  = Throw (TypeError ("Cannot read properties of " +:+ ToString count
                      +:+ " (reading 'toString')"))
      st
      (concat (map (fun m => emitted (call this m) st) ms)
       ++ [Get ".shopping_cart_badge"]).
Proof.
  intros Hms Hc. induction Hms as [|m ms Hm _ IH]; cbn [app call_chain map concat];
    unfold bind.
  - rewrite (call_nullish_throws this count st Hc). reflexivity.
  - rewrite (call_ok_shape this m st Hm), IH. rewrite app_assoc. reflexivity.
Qed.

(** X4. A fluent chain is plain sequencing. As long as no call is
    [shouldShowCartBadge] with an undefined or null count, the chain
    enqueues the commands of its calls, in order, and returns the
    instance it started from. At the first call that is, the chain
    throws the TypeError of reading [toString] from the count: by then
    the commands of the calls before it and the badge query of that call
    are enqueued, nothing of the calls after it is, and the store is as
    it was. *)
Theorem chain_is_sequence (this : Ref) (ms : list Method) (st : Store) :
  Forall (fun m => nullish_count m = false) ms ->
  call_chain this ms st
  = Ok (repeat this (length ms), this, st,
        concat (map (fun m => emitted (call this m) st) ms))
  /\ (forall count more,
        count = JUndefined \/ count = JNull ->
        call_chain this (ms ++ OnInventory (IP_shouldShowCartBadge count) :: more) st
        = Throw (TypeError ("Cannot read properties of " +:+ ToString count
                            +:+ " (reading 'toString')"))
            st
            (concat (map (fun m => emitted (call this m) st) ms)
             ++ [Get ".shopping_cart_badge"])).
Proof.
  intros Hms. split; [apply call_chain_ops, Hms|].
  intros count more Hc. apply call_chain_throws; assumption.
Qed.

Lemma chain_is_sequence_witness :
  Forall (fun m => nullish_count m = false)
    [OnInventory (IP_addProductToCart (JStr "sauce-labs-backpack"))]
  /\ call_chain 1
       [OnInventory (IP_addProductToCart (JStr "sauce-labs-backpack"));
        OnInventory (IP_shouldShowCartBadge JUndefined);
        OnInventory IP_goToCart] empty_store
     = Throw (TypeError "Cannot read properties of undefined (reading 'toString')")
         empty_store
         [Get ("[data-test=" +:+ quoted "add-to-cart-sauce-labs-backpack" +:+ "]"); Click;
          Get ".shopping_cart_badge"].
Proof.
  assert (Forall (fun m => nullish_count m = false)
            [OnInventory (IP_addProductToCart (JStr "sauce-labs-backpack"))]) as H
    by (repeat constructor).
  split; [exact H|].
  exact (proj2 (chain_is_sequence 1 _ empty_store H) JUndefined
           [OnInventory IP_goToCart] (or_introl eq_refl)).
Defined.

Lemma step_observes (rec : list Op -> ES -> Outcome) (app : App) (op : Op)
    (next : option Op) (es : ES) :
  observes op = true -> untouched es (step rec app op next es).
Proof.
  destruct op; try discriminate; intros _; cbn; unfold within, yield;
    repeat match goal with
      | |- context [match ?x with _ => _ end] => destruct x; cbn
      end; auto.
Qed.

Lemma run_ops_observes (rec : list Op -> ES -> Outcome) (app : App)
    (ops : list Op) (es : ES) :
  forallb observes ops = true -> untouched es (run_ops rec app ops es).
Proof.
  revert es. induction ops as [|op rest IH]; intros es; cbn.
  - auto.
  - intros [Hop Hrest]%andb_true_iff.
    pose proof (step_observes rec app op (head rest) es Hop) as Hs.
    destruct (step rec app op (head rest) es) as [es1|f es1|]; auto.
    destruct Hs as [Hp Hst]. specialize (IH es1 Hrest).
    destruct (run_ops rec app rest es1); cbn in *; auto.
    + destruct IH; split; congruence.
    + destruct IH; split; congruence.
Qed.

Lemma assertion_observes (this : Ref) (m : Method) (st : Store) :
  is_action m = false ->
  match call this m st with
  | Ok (_, _, ops) => forallb observes ops = true
  | Throw _ _ _ => True
  end.
Proof. method_cases m; intros H; try discriminate H; auto. Qed.

(** X5. Assertion methods only look. A method listed under
    "Validações" enqueues no interaction, and running it, pass or fail,
    leaves the page and the store exactly as they were. *)
Theorem assertions_leave_the_page_alone (this : Ref) (m : Method) (st : Store) :
  is_action m = false ->
  interactions (emitted (call this m) st) = 0
  /\ forall fuel app es, untouched es (check (S fuel) app (call this m) es).
Proof.
  intros Hm. split.
  - method_cases m; try discriminate Hm; reflexivity.
  - intros fuel app es. unfold check, run_body, bind.
    pose proof (assertion_observes this m (store es) Hm) as Ho.
    pose proof (call_store this m (store es)) as Hst.
    destruct (call this m (store es)) as [[[r st'] ops]|e st' ops];
      [|split; [reflexivity | exact Hst]].
    rewrite Hst.
    cbn. rewrite app_nil_r.
    pose proof (run_ops_observes (run fuel app) app ops
                  {| page := page es; subject := SNone; store := store es |} Ho) as Hr.
    destruct (run_ops _ _ _ _); cbn in *; tauto.
Qed.

Lemma assertions_leave_the_page_alone_witness :
  is_action (OnCart (CP_shouldContainProduct (JStr "Sauce Labs Backpack"))) = false
  /\ untouched (seen (cart_page ["Sauce Labs Backpack"]))
       (check 1 still
          (call 2 (OnCart (CP_shouldContainProduct (JStr "Sauce Labs Backpack"))))
          (seen (cart_page ["Sauce Labs Backpack"]))).
Proof.
  split; [reflexivity|].
  exact (proj2 (assertions_leave_the_page_alone 2
                  (OnCart (CP_shouldContainProduct (JStr "Sauce Labs Backpack")))
                  empty_store eq_refl)
           0 still (seen (cart_page ["Sauce Labs Backpack"]))).
Defined.

(** X6. A templated action on a product the page does not have fails
    with element-not-found for the selector built from the identifier,
    before anything is clicked; the identifier is not checked by the
    method, so an omitted one looks for "add-to-cart-undefined". *)
Theorem templated_actions_fail_on_unknown_product (this : Ref) (productId : JSValue)
    (fuel : nat) (app : App) (es : ES) :
  (query (page es)
     ("[data-test=" +:+ dq +:+ "add-to-cart-" +:+ ToString productId +:+ dq +:+ "]") = [] ->
   check (S fuel) app (InventoryPage.addProductToCart this productId) es
   = Failed (ElementNotFound
               ("[data-test=" +:+ dq +:+ "add-to-cart-" +:+ ToString productId
                +:+ dq +:+ "]"))
       (with_subject es SNone))
  /\ (query (page es)
        ("[data-test=" +:+ dq +:+ "remove-" +:+ ToString productId +:+ dq +:+ "]") = [] ->
      check (S fuel) app (InventoryPage.removeProductFromCart this productId) es
      = Failed (ElementNotFound
                  ("[data-test=" +:+ dq +:+ "remove-" +:+ ToString productId
                   +:+ dq +:+ "]"))
          (with_subject es SNone))
  /\ (query (page es) ("#item_" +:+ ToString productId +:+ "_title_link") = [] ->
      check (S fuel) app (InventoryPage.clickProductTitle this productId) es
      = Failed (ElementNotFound ("#item_" +:+ ToString productId +:+ "_title_link"))
          (with_subject es SNone)).
Proof.
  repeat split; intros H; unfold check, run_body; cbn; unfold yield; cbn;
    rewrite H; reflexivity.
Qed.

Lemma templated_actions_fail_on_unknown_product_witness :
  query (page (seen blank_page))
    ("[data-test=" +:+ dq +:+ "add-to-cart-" +:+ ToString JUndefined +:+ dq +:+ "]") = []
  /\ check 1 still (InventoryPage.addProductToCart 1 JUndefined) (seen blank_page)
     = Failed (ElementNotFound
                 ("[data-test=" +:+ dq +:+ "add-to-cart-undefined" +:+ dq +:+ "]"))
         (seen blank_page).
Proof.
  split; [reflexivity|].
  exact (proj1 (templated_actions_fail_on_unknown_product 1 JUndefined 0 still
                  (seen blank_page)) eq_refl).
Defined.



(** X8. [InventoryPage.shouldHaveProductCount(n)] asserts
    [('have.length', n)] for every [n], zero included, without a branch,
    and passes exactly on pages with [n] inventory items. *)
Theorem shouldHaveProductCount_does_not_branch (this : Ref) (n : Z) (st : Store) :
  InventoryPage.shouldHaveProductCount this (JNum n) st
  = Ok (this, st, [Get ".inventory_item"; Should "have.length" [JNum n]])
  /\ forall fuel app es,
       passes (check (S fuel) app (InventoryPage.shouldHaveProductCount this (JNum n)) es)
       = true
       <-> Z.of_nat (length (query (page es) ".inventory_item")) = n.
Proof.
  split; [reflexivity|]. intros fuel app es.
  unfold check, run_body; cbn. unfold yield; cbn.
  destruct (query (page es) ".inventory_item") as [|e els]; cbn;
    match goal with
    | |- context [(?a =? ?b)%Z] => destruct (Z.eqb_spec a b)
    end; cbn;
    split; intros H; first [discriminate | reflexivity | lia | exfalso; lia].
Qed.

Lemma each_item_ops (f : JSValue -> M unit) (l : list JSValue) (st : Store) :
  (forall x, f x st = Ok (tt, st, emitted (f x) st)) ->
  each_item f l st = Ok (tt, st, concat (map (fun x => emitted (f x) st) l)).
Proof.
  intros Hf. induction l as [|x l IH]; cbn; [reflexivity|].
  unfold bind. rewrite Hf, IH. reflexivity.
Qed.

(** X10. With [loginAsStandardUser] registered,
    [setupCartWithProducts(products)] enqueues the login command, creates
    one [InventoryPage] and, for an array, enqueues the commands of
    [addProductToCart] for each item in order (none for an empty array).
    A missing or null [products] throws the TypeError of reading
    [forEach] from it, any other non-array the TypeError of calling it,
    in both cases with the login command already enqueued and the
    [InventoryPage] already created. *)
Theorem setupCartWithProducts_adds_each_product (args : list JSValue) (st : Store)
    (fn : CommandFn) :
  lookup_command cmd_loginAsStandardUser (registry st) = Some fn ->
  match arg args 0 with
  | JArr products =>
      commands.setupCartWithProducts args st
      = Ok (tt,
            {| heap := heap st
                       ++ [{| po_class := ClsInventoryPage; po_fields := ∅ |}];
               registry := registry st;
               listeners := listeners st |},
            Custom cmd_loginAsStandardUser []
            :: concat (map (fun productId =>
                              emitted (InventoryPage.addProductToCart
                                         (length (heap st)) productId) st)
                         products))
  | JUndefined =>
      commands.setupCartWithProducts args st
      = Throw (TypeError "Cannot read properties of undefined (reading 'forEach')")
          {| heap := heap st
                     ++ [{| po_class := ClsInventoryPage; po_fields := ∅ |}];
             registry := registry st;
             listeners := listeners st |}
          [Custom cmd_loginAsStandardUser []]
  | JNull =>
      commands.setupCartWithProducts args st
      = Throw (TypeError "Cannot read properties of null (reading 'forEach')")
          {| heap := heap st
                     ++ [{| po_class := ClsInventoryPage; po_fields := ∅ |}];
             registry := registry st;
             listeners := listeners st |}
          [Custom cmd_loginAsStandardUser []]
  | _ =>
      commands.setupCartWithProducts args st
      = Throw (TypeError "products.forEach is not a function")
          {| heap := heap st
                     ++ [{| po_class := ClsInventoryPage; po_fields := ∅ |}];
             registry := registry st;
             listeners := listeners st |}
          [Custom cmd_loginAsStandardUser []]
  end.
Proof.
  intros Hreg. unfold commands.setupCartWithProducts, bind, cy.custom, new.
  rewrite Hreg, imports_InventoryPage. cbn.
  destruct (arg args 0) as [| | | | |products]; try reflexivity.
  cbn [forEach].
  match goal with
  | |- context [each_item ?f ?l ?s] => rewrite (each_item_ops f l s)
  end.
  - cbn. rewrite ?app_nil_r. reflexivity.
  - intros x. reflexivity.
Qed.

Lemma setupCartWithProducts_adds_each_product_witness :
  lookup_command cmd_loginAsStandardUser (registry loaded_store)
  = Some LoginAsStandardUserFn
  /\ emitted (commands.setupCartWithProducts
                [JArr [JStr "sauce-labs-backpack"; JStr "sauce-labs-bike-light"]])
       loaded_store
     = [Custom cmd_loginAsStandardUser [];
        Get ("[data-test=" +:+ quoted "add-to-cart-sauce-labs-backpack" +:+ "]"); Click;
        Get ("[data-test=" +:+ quoted "add-to-cart-sauce-labs-bike-light" +:+ "]"); Click]
  /\ commands.setupCartWithProducts [] loaded_store
     = Throw (TypeError "Cannot read properties of undefined (reading 'forEach')")
         {| heap := [{| po_class := ClsInventoryPage; po_fields := ∅ |}];
            registry := registry loaded_store;
            listeners := [] |}
         [Custom cmd_loginAsStandardUser []].
Proof.
  split; [reflexivity|]. split.
  - unfold emitted.
    rewrite (setupCartWithProducts_adds_each_product
               [JArr [JStr "sauce-labs-backpack"; JStr "sauce-labs-bike-light"]]
               loaded_store LoginAsStandardUserFn eq_refl).
    reflexivity.
  - exact (setupCartWithProducts_adds_each_product [] loaded_store
             LoginAsStandardUserFn eq_refl).
Defined.

(** X11. [loginAsStandardUser] enqueues what [loginAs] enqueues for the
    standard credentials, followed by the redirect assertion. [loginAs]
    itself visits, logs in with its two positional parameters and asserts
    nothing. [addProductViaUI] enqueues what [addProductToCart] does for
    its parameter. *)
Theorem loginAsStandardUser_is_loginAs_then_redirect_check (args : list JSValue)
    (st : Store) :
  emitted (commands.loginAsStandardUser args) st
  = emitted (commands.loginAs [JStr "standard_user"; JStr "secret_sauce"]) st
    ++ emitted (LoginPage.shouldRedirectToInventory (length (heap st))) st
  /\ emitted (commands.loginAs args) st
     = emitted (LoginPage.visit (length (heap st))) st
       ++ emitted (LoginPage.login (length (heap st)) (arg args 0) (arg args 1)) st
  /\ forallb (fun op => negb (is_assertion op)) (emitted (commands.loginAs args) st) = true
  /\ emitted (commands.addProductViaUI args) st
     = emitted (InventoryPage.addProductToCart (length (heap st)) (arg args 0)) st.
Proof.
  unfold emitted, commands.loginAsStandardUser, commands.loginAs,
    commands.addProductViaUI, bind, new.
  rewrite imports_LoginPage, imports_InventoryPage. cbn. repeat split.
Qed.












(** X15. The zero test of [shouldHaveItemCount] is strict equality: for
    every count other than the number 0 (the string "0", [null], an
    omitted count) the method asserts [('have.length', count)], not
    ['not.exist']. *)
Theorem shouldHaveItemCount_zero_is_strict (this : Ref) (count : JSValue) (st : Store) :
  count <> JNum 0 ->
  CartPage.shouldHaveItemCount this count st
  = Ok (this, st, [Get ".cart_item"; Should "have.length" [count]]).
Proof.
  intros Hc. unfold CartPage.shouldHaveItemCount.
  destruct count as [| | |n| |]; try reflexivity.
  cbn [strict_eq_num]. destruct (Z.eqb_spec n 0) as [->|Hn]; [congruence | reflexivity].
Qed.

Lemma shouldHaveItemCount_zero_is_strict_witness :
  JStr "0" <> JNum 0
  /\ CartPage.shouldHaveItemCount 2 (JStr "0") empty_store
     = Ok (2, empty_store, [Get ".cart_item"; Should "have.length" [JStr "0"]]).
Proof.
  assert (JStr "0" <> JNum 0) as H by discriminate.
  split; [exact H|].
  exact (shouldHaveItemCount_zero_is_strict 2 (JStr "0") empty_store H).
Defined.
